(** * ByteDatePicker: a shallow embedding of [src/ByteDatePicker.tsx]

    The source file holds two variants of one React component: the first
    (lines 1-330) without bounds, the second (lines 331-750) with
    [minDate]/[maxDate], [formatString] and a render-prop trigger.  The
    second variant is embedded at top level, the first one in [Module Legacy].

    Modelling choices.
    - A JavaScript number is [NaN] or an integer ([Num z]).  Every number the
      component handles is a date field or is obtained from one by adding or
      subtracting 1, 10 or 20, so fractions, infinities and the 2^53
      precision limit are left out.
    - A [Date] is its time value (milliseconds since the epoch, or [NaN] for
      an Invalid Date).  The calendar functions are the ones of ECMA-262,
      section 21.4.1, computed on [Z].
    - The host supplies the local time zone adjustment, which may change
      with the instant, the date parser and the clock ([Host]).
    - React state is a record; a handler maps the state of the render it
      closes over to the state after its batched updates, together with the
      list of [onChange] calls it made. *)

From Stdlib Require Import ZArith List String Ascii Bool Lia.
From Stdlib Require Import Numbers.DecimalString.
Import ListNotations.
Open Scope Z_scope.

(** ** Numbers *)

Inductive number : Type :=
| NaN
| Num (z : Z).

(** [a + b] *)
Definition num_add (a b : number) : number :=
  match a, b with
  | Num x, Num y => Num (x + y)
  | _, _ => NaN
  end.

(** [a - b] *)
Definition num_sub (a b : number) : number :=
  match a, b with
  | Num x, Num y => Num (x - y)
  | _, _ => NaN
  end.

(** [a === b]: [NaN] is not equal to itself. *)
Definition strict_eq (a b : number) : bool :=
  match a, b with
  | Num x, Num y => x =? y
  | _, _ => false
  end.

(** [a < b] and [a > b]: false as soon as one side is [NaN]. *)
Definition num_lt (a b : number) : bool :=
  match a, b with
  | Num x, Num y => x <? y
  | _, _ => false
  end.

Definition num_gt (a b : number) : bool := num_lt b a.

(** ToBoolean on a number: [0] and [NaN] are falsy. *)
Definition truthy (a : number) : bool :=
  match a with
  | NaN => false
  | Num z => negb (z =? 0)
  end.

(** [a || b] on numbers. *)
Definition or_else (a b : number) : number :=
  if truthy a then a else b.

(** ** Calendar arithmetic (ECMA-262, 21.4.1) *)

Definition msPerDay : Z := 86400000.

Definition Day (t : Z) : Z := t / msPerDay.

Definition TimeWithinDay (t : Z) : Z := t mod msPerDay.

Definition DaysInYear (y : Z) : Z :=
  if negb (y mod 4 =? 0) then 365
  else if negb (y mod 100 =? 0) then 366
  else if negb (y mod 400 =? 0) then 365
  else 366.

Definition DayFromYear (y : Z) : Z :=
  365 * (y - 1970) + (y - 1969) / 4 - (y - 1901) / 100 + (y - 1601) / 400.

(** The largest [y] with [DayFromYear y <= d]: an estimate from the mean
    length of a year, corrected by at most one ([year_of_day_spec] and
    [year_of_day_unique] below show this is the year ECMA-262 defines). *)
Definition year_of_day (d : Z) : Z :=
  let y0 := 1970 + (400 * d) / 146097 in
  if d <? DayFromYear y0 then y0 - 1
  else if DayFromYear (y0 + 1) <=? d then y0 + 1
  else y0.

Definition YearFromTime (t : Z) : Z := year_of_day (Day t).

Definition InLeapYear (t : Z) : Z :=
  if DaysInYear (YearFromTime t) =? 366 then 1 else 0.

Definition DayWithinYear (t : Z) : Z := Day t - DayFromYear (YearFromTime t).

Definition MonthFromTime (t : Z) : Z :=
  let d := DayWithinYear t in
  let leap := InLeapYear t in
  if d <? 31 then 0
  else if d <? 59 + leap then 1
  else if d <? 90 + leap then 2
  else if d <? 120 + leap then 3
  else if d <? 151 + leap then 4
  else if d <? 181 + leap then 5
  else if d <? 212 + leap then 6
  else if d <? 243 + leap then 7
  else if d <? 273 + leap then 8
  else if d <? 304 + leap then 9
  else if d <? 334 + leap then 10
  else 11.

Definition DateFromTime (t : Z) : Z :=
  let d := DayWithinYear t in
  let leap := InLeapYear t in
  match MonthFromTime t with
  | 0 => d + 1
  | 1 => d - 30
  | 2 => d - 58 - leap
  | 3 => d - 89 - leap
  | 4 => d - 119 - leap
  | 5 => d - 150 - leap
  | 6 => d - 180 - leap
  | 7 => d - 211 - leap
  | 8 => d - 242 - leap
  | 9 => d - 272 - leap
  | 10 => d - 303 - leap
  | _ => d - 333 - leap
  end.

Definition WeekDay (t : Z) : Z := (Day t + 4) mod 7.

(** Number of the first day of month [mn] (0..11) of year [ym]: the day of
    the time value whose year is [ym], month [mn] and date 1. *)
Definition first_day_of_month (ym mn : Z) : Z :=
  let leap := if DaysInYear ym =? 366 then 1 else 0 in
  DayFromYear ym +
  match mn with
  | 0 => 0
  | 1 => 31
  | 2 => 59 + leap
  | 3 => 90 + leap
  | 4 => 120 + leap
  | 5 => 151 + leap
  | 6 => 181 + leap
  | 7 => 212 + leap
  | 8 => 243 + leap
  | 9 => 273 + leap
  | 10 => 304 + leap
  | _ => 334 + leap
  end.

(** MakeDay on finite integers: month overflow carries into the year, and
    the date is an offset from the first day of the month, so that date 0 is
    the last day of the month before. *)
Definition MakeDay (year month date : Z) : Z :=
  let ym := year + month / 12 in
  let mn := month mod 12 in
  first_day_of_month ym mn + date - 1.

Definition MakeDate (day time : Z) : Z := day * msPerDay + time.

Definition TimeClip (t : Z) : number :=
  if Z.abs t <=? 8640000000000000 then Num t else NaN.

(** ** The host and Date objects *)

(** [LocalTZA t isUTC] is the local time zone adjustment of ECMA-262
    (21.4.1.7 in the 2022 edition): local time minus UTC, in milliseconds, in
    force at the UTC instant [t] when [isUTC], at the local time [t]
    otherwise; a local time that a forward transition skips is read with the
    offset before the transition. *)
Record Host : Type := mkHost {
  LocalTZA : Z -> bool -> Z;
  Date_parse : string -> number;   (* time value of [new Date(text)] *)
  now : Z                          (* time value of [new Date()] *)
}.

Record Date : Type := mkDate { getTime : number }.

Definition LocalTime (h : Host) (t : Z) : Z := t + LocalTZA h t true.

Definition UTC (h : Host) (t : Z) : Z := t - LocalTZA h t false.

(** The year the Date constructor works with: a year from 0 to 99 stands
    for 1900 + year. *)
Definition constructor_year (y : Z) : Z :=
  if (0 <=? y) && (y <=? 99) then 1900 + y else y.

(** [new Date(year, month, date)] *)
Definition new_Date (h : Host) (year month date : number) : Date :=
  match year, month, date with
  | Num y, Num m, Num dt =>
      let yr := constructor_year y in
      mkDate (TimeClip (UTC h (MakeDate (MakeDay yr m dt) 0)))
  | _, _, _ => mkDate NaN
  end.

(** [new Date()] *)
Definition today (h : Host) : Date := mkDate (Num (now h)).

Definition getFullYear (h : Host) (d : Date) : number :=
  match getTime d with
  | NaN => NaN
  | Num t => Num (YearFromTime (LocalTime h t))
  end.

Definition getMonth (h : Host) (d : Date) : number :=
  match getTime d with
  | NaN => NaN
  | Num t => Num (MonthFromTime (LocalTime h t))
  end.

Definition getDate (h : Host) (d : Date) : number :=
  match getTime d with
  | NaN => NaN
  | Num t => Num (DateFromTime (LocalTime h t))
  end.

Definition getDay (h : Host) (d : Date) : number :=
  match getTime d with
  | NaN => NaN
  | Num t => Num (WeekDay (LocalTime h t))
  end.

(** [a < b] and [a > b] on Date objects compare the time values. *)
Definition date_lt (a b : Date) : bool := num_lt (getTime a) (getTime b).

Definition date_gt (a b : Date) : bool := num_gt (getTime a) (getTime b).

(** ** Helpers shared by the two variants *)

Definition getDaysInMonth (h : Host) (year month : number) : number :=
  getDate h (new_Date h year (num_add month (Num 1)) (Num 0)).

Definition getFirstDayOfMonth (h : Host) (year month : number) : number :=
  getDay h (new_Date h year month (Num 1)).

(** ** Strings *)

(** [Number.prototype.toString] on the numbers of this model; the integers
    it is applied to are date fields, far below the 10^21 from which
    JavaScript prints an exponent. *)
Definition Number_toString (n : number) : string :=
  match n with
  | NaN => "NaN"%string
  | Num z => NilZero.string_of_int (Z.to_int z)
  end.

Fixpoint repeat_char (c : ascii) (n : nat) : string :=
  match n with
  | O => EmptyString
  | S k => String c (repeat_char c k)
  end.

(** [s.padStart(maxLength, fill)] for a one-character filler. *)
Definition padStart (s : string) (maxLength : nat) (fill : ascii) : string :=
  (repeat_char fill (maxLength - String.length s) ++ s)%string.

(** [s.replace(/pat/g, rep)] for a literal, non-empty pattern and a
    replacement without [$]: the matches are found from left to right and do
    not overlap.  [skip] counts the characters of the current match still to
    be dropped. *)
Fixpoint replace_from (pat rep : string) (skip : nat) (s : string) : string :=
  match s with
  | EmptyString => EmptyString
  | String c r =>
      match skip with
      | S k => replace_from pat rep k r
      | O =>
          if String.prefix pat s
          then (rep ++ replace_from pat rep (String.length pat - 1) r)%string
          else String c (replace_from pat rep 0 r)
      end
  end.

Definition replace_global (pat rep s : string) : string :=
  replace_from pat rep 0 s.

Definition monthNames : list string :=
  ["January"; "February"; "March"; "April"; "May"; "June"; "July";
   "August"; "September"; "October"; "November"; "December"]%string.

(** [monthNames[i]] inside a template literal: a missing entry prints as
    ["undefined"]. *)
Definition monthName (i : number) : string :=
  match i with
  | Num z => if z <? 0 then "undefined"%string
             else nth (Z.to_nat z) monthNames "undefined"%string
  | NaN => "undefined"%string
  end.

Definition formatDateByString (h : Host) (date : Date) (format : string) : string :=
  let yyyy := Number_toString (getFullYear h date) in
  let mm := padStart (Number_toString (num_add (getMonth h date) (Num 1))) 2 "0" in
  let dd := padStart (Number_toString (getDate h date)) 2 "0" in
  replace_global "dd" dd (replace_global "mm" mm (replace_global "yyyy" yyyy format)).

(** The two built-in formats, ["D Month YYYY"] and ["Month YYYY"]. *)
Definition formatVerbose (h : Host) (withDays : bool) (date : Date) : string :=
  if withDays
  then (Number_toString (getDate h date) ++ " " ++ monthName (getMonth h date)
        ++ " " ++ Number_toString (getFullYear h date))%string
  else (monthName (getMonth h date) ++ " "
        ++ Number_toString (getFullYear h date))%string.

(** ** The component (second variant) *)

Inductive DateInput : Type :=
| InDate (d : Date)
| InString (s : string).

(** The props after their defaults are applied; an absent ([undefined] or
    [null]) prop is [None], and [onChange] records whether a callback was
    supplied. *)
Record Props : Type := mkProps {
  value : option Date;
  onChange : bool;
  placeholder : string;
  disabled : bool;
  includeDays : bool;
  minDate : option DateInput;
  maxDate : option DateInput;
  formatString : option string;
  hideInput : bool
}.

Inductive ViewMode : Type := days | months | years.

Record State : Type := mkState {
  selectedDate : option Date;
  currentYear : number;
  currentMonth : number;
  isOpen : bool;
  viewMode : ViewMode
}.

Inductive Direction : Type := prev | next.

Definition ViewMode_eqb (a b : ViewMode) : bool :=
  match a, b with
  | days, days | months, months | years, years => true
  | _, _ => false
  end.

(** What a handler leaves behind: the next state and the arguments of the
    [onChange] calls, in order. *)
Definition Outcome : Type := State * list Date.

Definition setSelectedDate (v : option Date) (s : State) : State :=
  mkState v (currentYear s) (currentMonth s) (isOpen s) (viewMode s).

Definition setCurrentYear (v : number) (s : State) : State :=
  mkState (selectedDate s) v (currentMonth s) (isOpen s) (viewMode s).

Definition setCurrentMonth (v : number) (s : State) : State :=
  mkState (selectedDate s) (currentYear s) v (isOpen s) (viewMode s).

Definition setIsOpen (v : bool) (s : State) : State :=
  mkState (selectedDate s) (currentYear s) (currentMonth s) v (viewMode s).

Definition setViewMode (v : ViewMode) (s : State) : State :=
  mkState (selectedDate s) (currentYear s) (currentMonth s) (isOpen s) v.

(** [onChange?.(date)] *)
Definition call_onChange (p : Props) (date : Date) : list Date :=
  if onChange p then [date] else [].

Definition normalizeToDate (h : Host) (val : option DateInput) : option Date :=
  match val with
  | None => None
  | Some (InString "") => None
  | Some (InDate d) => Some d
  | Some (InString s) =>
      match Date_parse h s with
      | NaN => None
      | Num t => Some (mkDate (Num t))
      end
  end.

Definition initialViewMode (p : Props) : ViewMode :=
  if includeDays p then days else months.

(** The [useState] initialisers of the first render. *)
Definition initial_state (h : Host) (p : Props) : State :=
  {| selectedDate := value p;
     currentYear :=
       match value p with
       | Some v => or_else (getFullYear h v) (getFullYear h (today h))
       | None => getFullYear h (today h)
       end;
     currentMonth :=
       match value p with
       | Some v => or_else (getMonth h v) (getMonth h (today h))
       | None => getMonth h (today h)
       end;
     isOpen := false;
     viewMode := initialViewMode p |}.

(** The effect on [[value]]: it runs after the first render and after every
    render in which [value] changed. *)
Definition value_effect (h : Host) (p : Props) (s : State) : State :=
  let s1 := setSelectedDate (value p) s in
  match value p with
  | Some v => setCurrentMonth (getMonth h v) (setCurrentYear (getFullYear h v) s1)
  | None => s1
  end.

(** Mounting: the first render, then its effects. *)
Definition mount (h : Host) (p : Props) : State :=
  value_effect h p (initial_state h p).

Definition handleClickOutside (s : State) : State :=
  setViewMode months (setIsOpen false s).

Definition yearRange (s : State) : list number :=
  map (fun i => num_add (num_sub (currentYear s) (Num 10)) (Num (Z.of_nat i)))
      (seq 0 20).

Definition formatDisplay (h : Host) (p : Props) (date : option Date) : string :=
  match date with
  | None => ""%string
  | Some d =>
      match formatString p with
      | Some (String c f) => formatDateByString h d (String c f)
      | _ => formatVerbose h (includeDays p) d
      end
  end.

(** [min] and [max], computed by each render from the props. *)
Definition min_bound (h : Host) (p : Props) : option Date :=
  normalizeToDate h (minDate p).

Definition max_bound (h : Host) (p : Props) : option Date :=
  normalizeToDate h (maxDate p).

(** [isDateInRange], with the [min] and [max] it closes over as arguments. *)
Definition isDateInRange (min max : option Date) (date : Date) : bool :=
  if match min with Some m => date_lt date m | None => false end then false
  else if match max with Some m => date_gt date m | None => false end then false
  else true.

Definition handleDaySelect (h : Host) (p : Props) (s : State) (day : number) : Outcome :=
  let newDate := new_Date h (currentYear s) (currentMonth s) day in
  if negb (isDateInRange (min_bound h p) (max_bound h p) newDate) then (s, [])
  else (setViewMode (initialViewMode p)
          (setIsOpen false (setSelectedDate (Some newDate) s)),
        call_onChange p newDate).

Definition handleMonthSelect (h : Host) (p : Props) (s : State) (monthIndex : number) : Outcome :=
  if includeDays p then (setViewMode days (setCurrentMonth monthIndex s), [])
  else
    let newDate := new_Date h (currentYear s) monthIndex (Num 1) in
    if negb (isDateInRange (min_bound h p) (max_bound h p) newDate) then (s, [])
    else (setIsOpen false (setSelectedDate (Some newDate) s),
          call_onChange p newDate).

Definition handleYearSelect (s : State) (year : number) : State :=
  setViewMode months (setCurrentYear year s).

Definition navigateYear (s : State) (direction : Direction) : State :=
  let increment := if ViewMode_eqb (viewMode s) years then 20 else 1 in
  setCurrentYear
    (num_add (currentYear s)
       (Num (match direction with prev => - increment | next => increment end)))
    s.

Definition navigateMonth (s : State) (direction : Direction) : State :=
  match direction with
  | next =>
      if strict_eq (currentMonth s) (Num 11)
      then setCurrentYear (num_add (currentYear s) (Num 1)) (setCurrentMonth (Num 0) s)
      else setCurrentMonth (num_add (currentMonth s) (Num 1)) s
  | prev =>
      if strict_eq (currentMonth s) (Num 0)
      then setCurrentYear (num_sub (currentYear s) (Num 1)) (setCurrentMonth (Num 11) s)
      else setCurrentMonth (num_sub (currentMonth s) (Num 1)) s
  end.

(** The [open] action handed to a render-prop trigger, and the click on the
    inline trigger. *)
Definition open (p : Props) (s : State) : State :=
  if disabled p then s else setIsOpen true s.

Definition toggle (p : Props) (s : State) : State :=
  if disabled p then s else setIsOpen (negb (isOpen s)) s.

(** The text of the inline trigger. *)
Definition trigger_text (h : Host) (p : Props) (s : State) : string :=
  match selectedDate s with
  | Some d => formatDisplay h p (Some d)
  | None => placeholder p
  end.

(** The [disabled] attribute of the cells of the three grids. *)
Definition month_cell_disabled (h : Host) (p : Props) (s : State) (index : Z) : bool :=
  negb (isDateInRange (min_bound h p) (max_bound h p)
          (new_Date h (currentYear s) (Num index) (Num 1))).

Definition year_cell_disabled (h : Host) (p : Props) (year : number) : bool :=
  negb (isDateInRange (min_bound h p) (max_bound h p)
          (new_Date h year (Num 0) (Num 1))).

Definition day_cell_disabled (h : Host) (p : Props) (s : State) (day : Z) : bool :=
  negb (isDateInRange (min_bound h p) (max_bound h p)
          (new_Date h (currentYear s) (currentMonth s) (Num day))).

Definition month_grid (h : Host) (p : Props) (s : State) : list (string * bool) :=
  map (fun i => (nth i monthNames ""%string, month_cell_disabled h p s (Z.of_nat i)))
      (seq 0 (List.length monthNames)).

Definition year_grid (h : Host) (p : Props) (s : State) : list (number * bool) :=
  map (fun year => (year, year_cell_disabled h p year)) (yearRange s).

(** ** The first variant *)

Module Legacy.

Record Props : Type := mkProps {
  value : option Date;
  onChange : bool;
  placeholder : string;
  disabled : bool;
  includeDays : bool
}.

Definition initialViewMode (p : Props) : ViewMode :=
  if includeDays p then days else months.

(** [useState(value || today)] and the two cursor initialisers. *)
Definition initial_state (h : Host) (p : Props) : State :=
  {| selectedDate :=
       match value p with
       | Some v => Some v
       | None => Some (today h)
       end;
     currentYear :=
       match value p with
       | Some v => or_else (getFullYear h v) (getFullYear h (today h))
       | None => getFullYear h (today h)
       end;
     currentMonth :=
       match value p with
       | Some v => or_else (getMonth h v) (getMonth h (today h))
       | None => getMonth h (today h)
       end;
     isOpen := false;
     viewMode := initialViewMode p |}.

(** [setSelectedDate(value || null)] *)
Definition value_effect (p : Props) (s : State) : State :=
  setSelectedDate (value p) s.

Definition mount (h : Host) (p : Props) : State :=
  value_effect p (initial_state h p).

Definition formatDate (h : Host) (p : Props) (date : option Date) : string :=
  match date with
  | None => ""%string
  | Some d => formatVerbose h (includeDays p) d
  end.

Definition trigger_text (h : Host) (p : Props) (s : State) : string :=
  match selectedDate s with
  | Some d => formatDate h p (Some d)
  | None => placeholder p
  end.

Definition call_onChange (p : Props) (date : Date) : list Date :=
  if onChange p then [date] else [].

(** The handlers of the first variant build the date and store it; nothing
    is tested. *)
Definition handleDaySelect (h : Host) (p : Props) (s : State) (day : number) : Outcome :=
  let newDate := new_Date h (currentYear s) (currentMonth s) day in
  (setViewMode (initialViewMode p) (setIsOpen false (setSelectedDate (Some newDate) s)),
   call_onChange p newDate).

Definition handleMonthSelect (h : Host) (p : Props) (s : State) (monthIndex : number) : Outcome :=
  if includeDays p then (setViewMode days (setCurrentMonth monthIndex s), [])
  else
    let newDate := new_Date h (currentYear s) monthIndex (Num 1) in
    (setIsOpen false (setSelectedDate (Some newDate) s), call_onChange p newDate).

End Legacy.

(** ** The rest of the component: highlights, day grid, events *)

(** The four highlight predicates, the same in both variants; a missing
    selection makes [selectedDate?.getMonth()] undefined, equal to no number. *)
Definition isCurrentMonth (h : Host) (s : State) (monthIndex : number) : bool :=
  strict_eq monthIndex (getMonth h (today h))
  && strict_eq (currentYear s) (getFullYear h (today h)).


Definition isSelectedDay (h : Host) (s : State) (day : number) : bool :=
  match selectedDate s with
  | Some d => strict_eq (getDate h d) day
              && strict_eq (getMonth h d) (currentMonth s)
              && strict_eq (getFullYear h d) (currentYear s)
  | None => false
  end.

Definition isToday (h : Host) (s : State) (day : number) : bool :=
  strict_eq (getDate h (today h)) day
  && strict_eq (getMonth h (today h)) (currentMonth s)
  && strict_eq (getFullYear h (today h)) (currentYear s).

(** The number of entries of [Array.from({ length: n }, ...)]: none when [n]
    is [NaN] or negative. *)
Definition array_length (n : number) : nat :=
  match n with
  | Num z => Z.to_nat z
  | NaN => O
  end.

(** The day grid: the empty cells before the first day, then one button per
    day, numbered from 1. *)
Definition leading_blanks (h : Host) (s : State) : nat :=
  array_length (getFirstDayOfMonth h (currentYear s) (currentMonth s)).

Definition day_cells (h : Host) (s : State) : list Z :=
  map (fun i => Z.of_nat i + 1)
      (seq 0 (array_length (getDaysInMonth h (currentYear s) (currentMonth s)))).

Definition day_grid (h : Host) (p : Props) (s : State) : list (Z * bool) :=
  map (fun day => (day, day_cell_disabled h p s day)) (day_cells h s).

(** What the user can do to the widget.  The cells are named by their
    position in the grid that is shown. *)
Inductive Event : Type :=
| ClickTrigger            (* the inline trigger *)
| CallOpen                (* the [open] action of a render-prop trigger *)
| PointerDownOutside      (* mousedown or touchstart outside the container *)
| ClickOverlay
| ClickPrev
| ClickNext
| ClickHeaderLabel        (* the year, or month and year, between the arrows *)
| ClickMonthCell (index : nat)
| ClickYearCell (index : nat)
| ClickDayCell (index : nat).

(** One event under fixed props.  The inline trigger exists unless
    [hideInput], in which case the render function, if there is one, holds
    the [open] action and may call it at any time; overlay and dropdown exist
    while the popup is open, and the dropdown shows the grid of the view
    mode; a disabled button, or one that is not there, receives no click. *)
Definition step (h : Host) (p : Props) (s : State) (e : Event) : Outcome :=
  match e with
  | ClickTrigger => if hideInput p then (s, []) else (toggle p s, [])
  | CallOpen => if hideInput p then (open p s, []) else (s, [])
  | PointerDownOutside => (handleClickOutside s, [])
  | ClickOverlay => if isOpen s then (setIsOpen false s, []) else (s, [])
  | ClickPrev | ClickNext =>
      let direction := match e with ClickPrev => prev | _ => next end in
      if isOpen s then
        match viewMode s with
        | days => (navigateMonth s direction, [])
        | _ => (navigateYear s direction, [])
        end
      else (s, [])
  | ClickHeaderLabel =>
      if isOpen s then
        match viewMode s with
        | months => (setViewMode years s, [])
        | days => (setViewMode months s, [])
        | years => (s, [])
        end
      else (s, [])
  | ClickMonthCell index =>
      if isOpen s && ViewMode_eqb (viewMode s) months
         && (index <? List.length monthNames)%nat
         && negb (month_cell_disabled h p s (Z.of_nat index))
      then handleMonthSelect h p s (Num (Z.of_nat index))
      else (s, [])
  | ClickYearCell index =>
      if isOpen s && ViewMode_eqb (viewMode s) years then
        match nth_error (yearRange s) index with
        | Some year =>
            if year_cell_disabled h p year then (s, [])
            else (handleYearSelect s year, [])
        | None => (s, [])
        end
      else (s, [])
  | ClickDayCell index =>
      if isOpen s && ViewMode_eqb (viewMode s) days then
        match nth_error (day_cells h s) index with
        | Some day =>
            if day_cell_disabled h p s day then (s, [])
            else handleDaySelect h p s (Num day)
        | None => (s, [])
        end
      else (s, [])
  end.

(** A sequence of events, with the [onChange] calls in order. *)
Fixpoint run (h : Host) (p : Props) (s : State) (events : list Event) : Outcome :=
  match events with
  | [] => (s, [])
  | e :: rest =>
      let '(s1, calls1) := step h p s e in
      let '(s2, calls2) := run h p s1 rest in
      (s2, calls1 ++ calls2)
  end.

(** The props of the second variant that make it the first one. *)
Definition as_bounded (p : Legacy.Props) : Props :=
  mkProps (Legacy.value p) (Legacy.onChange p) (Legacy.placeholder p)
    (Legacy.disabled p) (Legacy.includeDays p) None None None false.

(** A bound that holds no valid date. *)
Definition rejects_nothing (h : Host) (bound : option DateInput) : Prop :=
  bound = None \/ bound = Some (InString "") \/
  (exists text, bound = Some (InString text) /\ Date_parse h text = NaN) \/
  bound = Some (InDate (mkDate NaN)).

(** The value is absent or a valid date. *)
Definition value_ok (p : Props) : Prop :=
  match value p with
  | Some v => exists t, getTime v = Num t
  | None => True
  end.

(** The cursor is on a numbered year and a month index. *)
Definition cursor_ok (s : State) : Prop :=
  exists y m, currentYear s = Num y /\ currentMonth s = Num m /\ 0 <= m <= 11.

(** The selection is the value supplied or a date in range. *)
Definition selection_in_range (h : Host) (p : Props) (s : State) : Prop :=
  selectedDate s = value p \/
  exists d, selectedDate s = Some d
            /\ isDateInRange (min_bound h p) (max_bound h p) d = true.

(** The argument of the last call of a list, [otherwise] when there is none. *)
Definition last_call (calls : list Date) (otherwise : option Date) : option Date :=
  match rev calls with
  | d :: _ => Some d
  | [] => otherwise
  end.

(** ** What the specification talks about

    The definitions of this part follow the words of the specification; the
    theorems below compare them with the code above. *)

(** The Gregorian leap-year rule: divisible by 4, except the centuries that
    are not divisible by 400. *)
Definition gregorian_leap (y : Z) : bool :=
  (y mod 4 =? 0) && (negb (y mod 100 =? 0) || (y mod 400 =? 0)).

(** The length of month [m] (0 = January) of year [y]. *)
Definition month_length (y m : Z) : Z :=
  match m with
  | 1 => if gregorian_leap y then 29 else 28
  | 3 | 5 | 8 | 10 => 30
  | _ => 31
  end.

(** [a] is an instant strictly before [b]; an Invalid Date is neither before
    nor after anything. *)
Definition strictly_before (a b : Date) : Prop :=
  exists ta tb, getTime a = Num ta /\ getTime b = Num tb /\ ta < tb.

(** [d] is outside the bounds of the configuration. *)
Definition out_of_bounds (h : Host) (p : Props) (d : Date) : Prop :=
  (exists m, min_bound h p = Some m /\ strictly_before d m) \/
  (exists m, max_bound h p = Some m /\ strictly_before m d).

(** [d] is local midnight of the calendar day [dt] of month [m] of year [y]. *)
Definition is_local_date (h : Host) (d : Date) (y m dt : Z) : Prop :=
  getFullYear h d = Num y /\ getMonth h d = Num m /\ getDate h d = Num dt /\
  exists t, getTime d = Num t /\ TimeWithinDay (LocalTime h t) = 0.

(** The years the Date constructor takes as they are and can represent in
    every month: all but 0..99, from -271820 to 275759. *)
Definition literal_year (y : Z) : Prop :=
  -271820 <= y < 0 \/ 100 <= y <= 275759.

(** Local time is UTC plus one and the same offset, of a day at most, at
    every instant: the zone has no transition, so that no local day is
    skipped or repeated. *)
Definition zone_within_a_day (h : Host) : Prop :=
  exists offset,
    - msPerDay <= offset <= msPerDay /\
    forall t isUTC, LocalTZA h t isUTC = offset.

(** The offset of such a host. *)
Definition zone_offset (h : Host) : Z := LocalTZA h 0 true.

(** The pieces of a format pattern, read from left to right: a token where
    one starts, one character otherwise. *)
Inductive piece : Type :=
| Lit (c : ascii)
| YYYY
| MM
| DD.

Fixpoint tokenize_from (skip : nat) (s : string) : list piece :=
  match s with
  | EmptyString => []
  | String c r =>
      match skip with
      | S k => tokenize_from k r
      | O =>
          if String.prefix "yyyy" s then YYYY :: tokenize_from 3 r
          else if String.prefix "mm" s then MM :: tokenize_from 1 r
          else if String.prefix "dd" s then DD :: tokenize_from 1 r
          else Lit c :: tokenize_from 0 r
      end
  end.

Definition tokenize (format : string) : list piece := tokenize_from 0 format.

(** The text a piece stands for in the pattern, and in the output. *)
Definition piece_source (x : piece) : string :=
  match x with
  | Lit c => String c EmptyString
  | YYYY => "yyyy"
  | MM => "mm"
  | DD => "dd"
  end.

Definition render (year month day : string) (x : piece) : string :=
  match x with
  | Lit c => String c EmptyString
  | YYYY => year
  | MM => month
  | DD => day
  end.

Definition substitute_tokens (year month day format : string) : string :=
  String.concat "" (map (render year month day) (tokenize format)).

(** The last [width] decimal digits of [n], with leading zeros. *)
Definition digit_char (d : Z) : ascii := ascii_of_nat (48 + Z.to_nat d).

Fixpoint zero_padded (width : nat) (n : Z) : string :=
  match width with
  | O => EmptyString
  | S w => (zero_padded w (n / 10) ++ String (digit_char (n mod 10)) EmptyString)%string
  end.

(** Pattern formatting as the specification words it, for a valid date. *)
Definition formatted_as_specified (h : Host) (date : Date) (format : string) : Prop :=
  exists y m d,
    getFullYear h date = Num y /\ getMonth h date = Num m /\ getDate h date = Num d /\
    formatDateByString h date format
    = substitute_tokens (zero_padded 4 y) (zero_padded 2 (m + 1)) (zero_padded 2 d) format.

(** [getDaysInMonth] as the specification words it. *)
Definition days_in_month_as_specified (h : Host) (y m : Z) : Prop :=
  exists n,
    getDaysInMonth h (Num y) (Num m) = Num n /\
    (n = 28 \/ n = 29 \/ n = 30 \/ n = 31) /\
    n = month_length y m /\
    (m = 1 -> (n = 29 <-> gregorian_leap y = true)).

(** An attempt on a candidate date outside the bounds, as the specification
    words it: the candidate is a day of the cursor month for a day button,
    the 1st of a month of the cursor year for a month button in month-only
    mode, and the attempt changes nothing and calls nothing. *)
Definition day_attempt_as_specified (h : Host) (p : Props) (s : State) (day : Z) : Prop :=
  forall y m d,
    currentYear s = Num y -> currentMonth s = Num m ->
    is_local_date h d y m day -> out_of_bounds h p d ->
    handleDaySelect h p s (Num day) = (s, []).

Definition month_attempt_as_specified (h : Host) (p : Props) (s : State) (index : Z) : Prop :=
  includeDays p = false ->
  forall y d,
    currentYear s = Num y ->
    is_local_date h d y index 1 -> out_of_bounds h p d ->
    handleMonthSelect h p s (Num index) = (s, []).




(** ** Sample hosts, configurations and states *)

(** A host on UTC whose parser rejects every text, on 10 June 2024. *)
Definition host_utc : Host := mkHost (fun _ _ => 0) (fun _ => NaN) 1718000000000.

(** A host whose offset goes from [before] to [after] at the UTC instant
    [at_utc]; the local times of the gap, or of the overlap, are read with
    the offset before the transition. *)
Definition host_with_transition (before after at_utc : Z) : Host :=
  mkHost
    (fun t isUTC =>
       if isUTC then (if t <? at_utc then before else after)
       else (if t <? at_utc + Z.max before after then before else after))
    (fun _ => NaN) 1718000000000.

(** Kiritimati, which went from UTC-10 to UTC+14 at the end of 30 December
    1994, and Apia, which did so at the end of 29 December 2011: 31 December
    1994 does not exist on the first, 30 December 2011 on the second. *)
Definition host_kiritimati : Host :=
  host_with_transition (-36000000) 50400000 788868000000.

Definition host_apia : Host :=
  host_with_transition (-36000000) 50400000 1325239200000.

Definition no_bounds (withDays : bool) : Props :=
  mkProps None true "Select Date" false withDays None None None false.

(** [minDate] is 10 January 2024. *)
Definition from_jan_10 (withDays : bool) : Props :=
  mkProps None true "Select Date" false withDays
    (Some (InDate (new_Date host_utc (Num 2024) (Num 0) (Num 10)))) None None false.

(** [minDate] is 1 January 1900. *)
Definition from_1900 : Props :=
  mkProps None true "Select Date" false false
    (Some (InDate (new_Date host_utc (Num 1900) (Num 0) (Num 1)))) None None false.

(** The same in day mode. *)
Definition from_1900_days : Props :=
  mkProps None true "Select Date" false true
    (Some (InDate (new_Date host_utc (Num 1900) (Num 0) (Num 1)))) None None false.

(** [maxDate] is 1 January 2030. *)
Definition until_2030 : Props :=
  mkProps None true "Select Date" false false
    None (Some (InDate (new_Date host_utc (Num 2030) (Num 0) (Num 1)))) None false.

Definition cursor_at (y m : Z) (mode : ViewMode) : State :=
  mkState None (Num y) (Num m) true mode.

(** The value 15 January 2023, and a configuration that supplies it. *)
Definition jan_15_2023 : Date := new_Date host_utc (Num 2023) (Num 0) (Num 15).

Definition with_jan_15_2023 : Props :=
  mkProps (Some jan_15_2023) true "Select Date" false true None None None false.

(** The first variant without a value. *)
Definition legacy_no_value : Legacy.Props :=
  Legacy.mkProps None true "Select Date" false false.

(** The first variant with the value 15 January 2023. *)
Definition legacy_with_jan_15_2023 : Legacy.Props :=
  Legacy.mkProps (Some jan_15_2023) true "Select Date" false true.

(** A disabled widget, and one whose [minDate] is a text the parser of
    [host_utc] rejects. *)
Definition disabled_widget : Props :=
  mkProps None true "Select Date" true true None None None false.

Definition unparsable_min : Props :=
  mkProps None true "Select Date" false true
    (Some (InString "next week")) None None false.

(** Open the popup and click the 15th day cell. *)
Definition open_and_pick_15 : list Event := [ClickTrigger; ClickDayCell 14].

(** ** Vocabulary of the proofs *)

(** [c] occurs in [s]. *)
Fixpoint occurs (c : ascii) (s : string) : bool :=
  match s with
  | EmptyString => false
  | String x r => Ascii.eqb x c || occurs c r
  end.

Definition head_is (c : ascii) (s : string) : bool :=
  match s with
  | EmptyString => false
  | String x _ => Ascii.eqb x c
  end.

(** The characters a printed number is made of. *)
Definition numeric_chars : string := "0123456789-Na".

(** The [len] integers from [lo] on. *)
Definition Z_range (lo len : Z) : list Z :=
  map (fun i => lo + Z.of_nat i) (seq 0 (Z.to_nat len)).

(** * Properties *)

(** ** Calendar arithmetic *)

Ltac zdiv := Z.div_mod_to_equations; lia.

Lemma DaysInYear_leap y :
  DaysInYear y = if gregorian_leap y then 366 else 365.
Proof.
  unfold DaysInYear, gregorian_leap.
  destruct (y mod 4 =? 0), (y mod 100 =? 0), (y mod 400 =? 0); reflexivity.
Qed.

Lemma DayFromYear_succ y : DayFromYear (y + 1) = DayFromYear y + DaysInYear y.
Proof.
  rewrite DaysInYear_leap. unfold DayFromYear, gregorian_leap.
  destruct (Z.eqb_spec (y mod 4) 0), (Z.eqb_spec (y mod 100) 0),
    (Z.eqb_spec (y mod 400) 0); cbn [andb orb negb]; zdiv.
Qed.

Lemma DayFromYear_mono a b : a <= b -> DayFromYear a <= DayFromYear b.
Proof. unfold DayFromYear. intros. zdiv. Qed.

(** [year_of_day d] is the year whose days include [d] ... *)
Lemma year_of_day_spec d :
  DayFromYear (year_of_day d) <= d < DayFromYear (year_of_day d + 1).
Proof.
  unfold year_of_day.
  set (y0 := 1970 + 400 * d / 146097).
  assert (H1 : DayFromYear (y0 - 1) <= d) by (unfold DayFromYear, y0; zdiv).
  assert (H2 : d < DayFromYear (y0 + 2)) by (unfold DayFromYear, y0; zdiv).
  destruct (Z.ltb_spec d (DayFromYear y0)).
  - replace (y0 - 1 + 1) with y0 by lia. lia.
  - destruct (Z.leb_spec (DayFromYear (y0 + 1)) d).
    + replace (y0 + 1 + 1) with (y0 + 2) by lia. lia.
    + lia.
Qed.

(** ... and the only one. *)
Lemma year_of_day_unique d y :
  DayFromYear y <= d < DayFromYear (y + 1) -> year_of_day d = y.
Proof.
  intros H. pose proof (year_of_day_spec d) as S.
  destruct (Z.lt_trichotomy (year_of_day d) y) as [L | [E | G]]; [ | exact E | ].
  - pose proof (DayFromYear_mono (year_of_day d + 1) y ltac:(lia)). lia.
  - pose proof (DayFromYear_mono (y + 1) (year_of_day d) ltac:(lia)). lia.
Qed.

Lemma month_cases m : 0 <= m <= 11 ->
  m = 0 \/ m = 1 \/ m = 2 \/ m = 3 \/ m = 4 \/ m = 5 \/ m = 6 \/ m = 7 \/
  m = 8 \/ m = 9 \/ m = 10 \/ m = 11.
Proof. lia. Qed.

Ltac month_split H :=
  apply month_cases in H;
  destruct H as [-> | [-> | [-> | [-> | [-> | [-> | [-> | [-> | [-> | [-> | [-> | ->]]]]]]]]]]].

Ltac ltb_cases :=
  repeat match goal with
         | |- context [?a <? ?b] => destruct (Z.ltb_spec a b); try lia
         end.

Lemma month_length_bounds y m : 28 <= month_length y m <= 31.
Proof.
  unfold month_length.
  repeat match goal with
         | |- context [match ?x with _ => _ end] => destruct x
         end; lia.
Qed.

(** The fields of a time value that falls on day [dt] of month [m] of [y]. *)
Lemma fields_of_day t y m dt :
  0 <= m <= 11 -> 1 <= dt <= month_length y m ->
  Day t = first_day_of_month y m + dt - 1 ->
  YearFromTime t = y /\ MonthFromTime t = m /\ DateFromTime t = dt.
Proof.
  intros Hm Hdt Hday.
  assert (Hy : YearFromTime t = y).
  { unfold YearFromTime. apply year_of_day_unique. rewrite Hday, DayFromYear_succ.
    unfold first_day_of_month, month_length in *. rewrite DaysInYear_leap in *.
    month_split Hm; destruct (gregorian_leap y); cbn in *; lia. }
  assert (Hmo : MonthFromTime t = m).
  { unfold MonthFromTime, InLeapYear, DayWithinYear. rewrite Hy, Hday.
    unfold first_day_of_month, month_length in *. rewrite DaysInYear_leap in *.
    month_split Hm; destruct (gregorian_leap y); cbn in *; ltb_cases. }
  split; [exact Hy | split; [exact Hmo | ]].
  unfold DateFromTime. rewrite Hmo. unfold InLeapYear, DayWithinYear.
  rewrite Hy, Hday. unfold first_day_of_month. rewrite DaysInYear_leap.
  month_split Hm; destruct (gregorian_leap y); cbn; lia.
Qed.

(** Conversely the fields of any time value are a month, a day of that month,
    and they give its day number back. *)
Lemma day_of_fields t :
  0 <= MonthFromTime t <= 11 /\
  1 <= DateFromTime t <= month_length (YearFromTime t) (MonthFromTime t) /\
  Day t = first_day_of_month (YearFromTime t) (MonthFromTime t) + DateFromTime t - 1.
Proof.
  pose proof (year_of_day_spec (Day t)) as S. rewrite DayFromYear_succ in S.
  unfold DateFromTime, MonthFromTime, InLeapYear, DayWithinYear, first_day_of_month,
    month_length, YearFromTime in *.
  rewrite DaysInYear_leap in *.
  set (y := year_of_day (Day t)) in *.
  destruct (gregorian_leap y); cbn in *;
    repeat match goal with
           | |- context [?a <? ?b] => destruct (Z.ltb_spec a b); cbn
           end; lia.
Qed.

Lemma MakeDay_in_month y m dt :
  0 <= m <= 11 -> MakeDay y m dt = first_day_of_month y m + dt - 1.
Proof.
  intros Hm. unfold MakeDay.
  replace (m / 12) with 0 by zdiv. replace (m mod 12) with m by zdiv.
  now replace (y + 0) with y by lia.
Qed.

(** Day 0 of the next month is the last day of this one. *)
Lemma MakeDay_day_zero y m :
  0 <= m <= 11 ->
  MakeDay y (m + 1) 0 = first_day_of_month y m + month_length y m - 1.
Proof.
  intros Hm. unfold MakeDay.
  assert (C : m = 11 \/ 0 <= m <= 10) by lia. destruct C as [-> | Hm'].
  - change ((11 + 1) / 12) with 1. change ((11 + 1) mod 12) with 0.
    unfold first_day_of_month, month_length. rewrite DayFromYear_succ, DaysInYear_leap.
    destruct (gregorian_leap y); cbn; lia.
  - replace ((m + 1) / 12) with 0 by zdiv. replace ((m + 1) mod 12) with (m + 1) by zdiv.
    replace (y + 0) with y by lia. unfold first_day_of_month, month_length.
    rewrite DaysInYear_leap.
    assert (Hm2 : 0 <= m <= 11) by lia.
    month_split Hm2; try lia; destruct (gregorian_leap y); cbn; lia.
Qed.

Lemma day_number_bounds y m dt :
  -271820 <= y <= 275759 -> 0 <= m <= 11 -> 1 <= dt <= month_length y m ->
  -99999744 <= first_day_of_month y m + dt - 1 < 99999744.
Proof.
  intros Hy Hm Hdt.
  pose proof (DayFromYear_mono (-271820) y ltac:(lia)) as L.
  pose proof (DayFromYear_mono (y + 1) 275760 ltac:(lia)) as U.
  change (DayFromYear (-271820)) with (-99999744) in L.
  change (DayFromYear 275760) with 99999744 in U.
  rewrite DayFromYear_succ in U.
  unfold first_day_of_month, month_length in *. rewrite DaysInYear_leap in *.
  month_split Hm; destruct (gregorian_leap y); cbn in *; lia.
Qed.

Lemma zone_constant h :
  zone_within_a_day h ->
  (forall t isUTC, LocalTZA h t isUTC = zone_offset h)
  /\ - msPerDay <= zone_offset h <= msPerDay.
Proof.
  intros (c & Hc & E). unfold zone_offset. rewrite (E 0 true).
  split; [exact E | exact Hc].
Qed.

Lemma TimeClip_local_midnight h n :
  zone_within_a_day h -> -99999744 <= n < 99999744 ->
  TimeClip (UTC h (MakeDate n 0)) = Num (n * msPerDay - zone_offset h).
Proof.
  intros Hz Hn. destruct (zone_constant h Hz) as [E B].
  unfold TimeClip, UTC, MakeDate. rewrite E. unfold msPerDay in *.
  rewrite Z.add_0_r.
  destruct (Z.leb_spec (Z.abs (n * 86400000 - zone_offset h)) 8640000000000000);
    [reflexivity | lia].
Qed.

Lemma Day_local_midnight h n :
  zone_within_a_day h ->
  Day (LocalTime h (n * msPerDay - zone_offset h)) = n /\
  TimeWithinDay (LocalTime h (n * msPerDay - zone_offset h)) = 0.
Proof.
  intros Hz. destruct (zone_constant h Hz) as [E _].
  unfold Day, TimeWithinDay, LocalTime. rewrite E. unfold msPerDay.
  replace (n * 86400000 - zone_offset h + zone_offset h) with (n * 86400000) by lia.
  split; [apply Z.div_mul | apply Z.mod_mul]; lia.
Qed.

(** ** Dates built from a year, a month and a day *)

Lemma constructor_year_literal y : literal_year y -> constructor_year y = y.
Proof.
  unfold literal_year, constructor_year. intros H.
  destruct (Z.leb_spec 0 y), (Z.leb_spec y 99); cbn [andb]; lia.
Qed.

Lemma constructor_year_range y :
  -271820 <= y <= 275759 -> -271820 <= constructor_year y <= 275759.
Proof.
  unfold constructor_year. intros H.
  destruct (Z.leb_spec 0 y), (Z.leb_spec y 99); cbn [andb]; lia.
Qed.

Lemma new_Date_time h y m dt :
  zone_within_a_day h -> -271820 <= y <= 275759 -> 0 <= m <= 11 ->
  1 <= dt <= month_length (constructor_year y) m ->
  new_Date h (Num y) (Num m) (Num dt)
  = mkDate (Num ((first_day_of_month (constructor_year y) m + dt - 1) * msPerDay
                 - zone_offset h)).
Proof.
  intros Hz Hy Hm Hdt. unfold new_Date. cbv zeta.
  rewrite MakeDay_in_month by exact Hm.
  rewrite TimeClip_local_midnight; [reflexivity | exact Hz | ].
  apply day_number_bounds; [apply constructor_year_range | | ]; assumption.
Qed.

Lemma local_midnight_fields h y m dt :
  zone_within_a_day h -> 0 <= m <= 11 -> 1 <= dt <= month_length y m ->
  is_local_date h
    (mkDate (Num ((first_day_of_month y m + dt - 1) * msPerDay - zone_offset h)))
    y m dt.
Proof.
  intros Hz Hm Hdt.
  destruct (Day_local_midnight h (first_day_of_month y m + dt - 1) Hz) as [HD HT].
  destruct (fields_of_day _ y m dt Hm Hdt HD) as (Fy & Fm & Fd).
  unfold is_local_date, getFullYear, getMonth, getDate. cbn [getTime].
  rewrite Fy, Fm, Fd. repeat split. eexists. split; [reflexivity | exact HT].
Qed.

(** For a year it takes as it is, the constructor builds local midnight of
    the day asked for ... *)
Lemma new_Date_fields h y m dt :
  zone_within_a_day h -> literal_year y -> 0 <= m <= 11 ->
  1 <= dt <= month_length y m ->
  is_local_date h (new_Date h (Num y) (Num m) (Num dt)) y m dt.
Proof.
  intros Hz Hy Hm Hdt. pose proof (constructor_year_literal y Hy) as E.
  rewrite new_Date_time; rewrite ?E; try assumption.
  - now apply local_midnight_fields.
  - unfold literal_year in Hy. lia.
Qed.

(** ... and local midnight of a day is one Date only. *)
Lemma local_date_unique h d y m dt :
  zone_within_a_day h -> is_local_date h d y m dt ->
  0 <= m <= 11 /\ 1 <= dt <= month_length y m /\
  d = mkDate (Num ((first_day_of_month y m + dt - 1) * msPerDay - zone_offset h)).
Proof.
  intros Hz. destruct (zone_constant h Hz) as [E _].
  unfold is_local_date, getFullYear, getMonth, getDate.
  destruct d as [tv]. cbn [getTime]. intros (Fy & Fm & Fd & t & Ht & Hmid).
  subst tv. injection Fy as Fy. injection Fm as Fm. injection Fd as Fd.
  destruct (day_of_fields (LocalTime h t)) as (Bm & Bd & HD).
  rewrite Fy, Fm, Fd in *. split; [exact Bm | split; [exact Bd | ]].
  do 2 f_equal. rewrite <- HD.
  unfold Day, TimeWithinDay, LocalTime in *. rewrite E in *.
  unfold msPerDay in *. zdiv.
Qed.

Lemma new_Date_is_the_local_date h d y m dt :
  zone_within_a_day h -> literal_year y -> is_local_date h d y m dt ->
  d = new_Date h (Num y) (Num m) (Num dt).
Proof.
  intros Hz Hy Hd. destruct (local_date_unique h d y m dt Hz Hd) as (Hm & Hdt & ->).
  pose proof (constructor_year_literal y Hy) as E.
  rewrite new_Date_time; rewrite ?E; try assumption; [reflexivity | ].
  unfold literal_year in Hy. lia.
Qed.

(** Outside these years the constructor does not build the day asked for. *)
Example new_Date_other_years :
  getFullYear host_utc (new_Date host_utc (Num 50) (Num 5) (Num 1)) = Num 1950
  /\ new_Date host_utc (Num 275761) (Num 0) (Num 1) = mkDate NaN
  /\ new_Date host_utc NaN (Num 0) (Num 1) = mkDate NaN.
Proof. repeat split; vm_compute; reflexivity. Qed.

Lemma gregorian_leap_1900 y : 1 <= y <= 99 -> gregorian_leap (1900 + y) = gregorian_leap y.
Proof.
  intros H. unfold gregorian_leap.
  destruct (Z.eqb_spec ((1900 + y) mod 4) 0), (Z.eqb_spec (y mod 4) 0),
    (Z.eqb_spec ((1900 + y) mod 100) 0), (Z.eqb_spec (y mod 100) 0),
    (Z.eqb_spec ((1900 + y) mod 400) 0), (Z.eqb_spec (y mod 400) 0);
    cbn [andb orb negb]; try reflexivity; zdiv.
Qed.

Lemma month_length_constructor_year y m :
  y <> 0 -> month_length (constructor_year y) m = month_length y m.
Proof.
  intros Hy. unfold constructor_year.
  destruct (Z.leb_spec 0 y), (Z.leb_spec y 99); cbn [andb]; try reflexivity.
  unfold month_length. now rewrite gregorian_leap_1900 by lia.
Qed.

Lemma getDaysInMonth_value h y m :
  zone_within_a_day h -> -271820 <= y <= 275759 -> 0 <= m <= 11 ->
  getDaysInMonth h (Num y) (Num m) = Num (month_length (constructor_year y) m).
Proof.
  intros Hz Hy Hm. unfold getDaysInMonth, new_Date. cbn [num_add]. cbv zeta.
  set (yr := constructor_year y).
  pose proof (month_length_bounds yr m) as B.
  rewrite MakeDay_day_zero by exact Hm.
  rewrite TimeClip_local_midnight;
    [ | exact Hz | apply day_number_bounds;
                   [apply constructor_year_range; exact Hy | exact Hm | lia ] ].
  destruct (local_midnight_fields h yr m (month_length yr m) Hz Hm ltac:(lia))
    as (_ & _ & Fd & _).
  exact Fd.
Qed.


(** ** Printed numbers *)

Lemma occurs_app c a b : occurs c (a ++ b) = occurs c a || occurs c b.
Proof. induction a; simpl; [reflexivity | now rewrite IHa, orb_assoc]. Qed.

Lemma occurs_cons_numeric x r c :
  occurs x numeric_chars = true ->
  (occurs c r = true -> occurs c numeric_chars = true) ->
  occurs c (String x r) = true -> occurs c numeric_chars = true.
Proof.
  intros Hx Hr. simpl. destruct (Ascii.eqb_spec x c) as [-> | _]; [now intros _ | exact Hr].
Qed.

Lemma string_of_uint_numeric u c :
  occurs c (NilEmpty.string_of_uint u) = true -> occurs c numeric_chars = true.
Proof.
  induction u; cbn [NilEmpty.string_of_uint];
    [discriminate | apply occurs_cons_numeric; [reflexivity | exact IHu] ..].
Qed.

Lemma Number_toString_numeric n c :
  occurs c (Number_toString n) = true -> occurs c numeric_chars = true.
Proof.
  destruct n as [| z]; cbn [Number_toString].
  - repeat (apply occurs_cons_numeric; [reflexivity | ]). discriminate.
  - destruct (Z.to_int z) as [u | u]; cbn [NilZero.string_of_int].
    + destruct u; try apply string_of_uint_numeric.
      apply occurs_cons_numeric; [reflexivity | discriminate].
    + apply occurs_cons_numeric; [reflexivity | ].
      destruct u; try apply string_of_uint_numeric.
      apply occurs_cons_numeric; [reflexivity | discriminate].
Qed.

Lemma Number_toString_nonempty n : Number_toString n <> EmptyString.
Proof.
  destruct n as [| z]; cbn [Number_toString]; [discriminate | ].
  destruct (Z.to_int z) as [u | u]; cbn [NilZero.string_of_int]; [ | discriminate].
  destruct u; discriminate.
Qed.

Lemma repeat_char_occurs c x n : occurs c (repeat_char x n) = true -> x = c.
Proof.
  induction n; simpl; [discriminate | ].
  destruct (Ascii.eqb_spec x c); [trivial | exact IHn].
Qed.

Lemma padStart_numeric s n c :
  (occurs c s = true -> occurs c numeric_chars = true) ->
  occurs c (padStart s n "0") = true -> occurs c numeric_chars = true.
Proof.
  intros Hs. unfold padStart. rewrite occurs_app. intros H.
  apply orb_prop in H as [H | H]; [ | now apply Hs].
  apply repeat_char_occurs in H. now subst c.
Qed.

Lemma padStart_nonempty s n c : s <> EmptyString -> padStart s n c <> EmptyString.
Proof.
  unfold padStart. destruct (repeat_char c (n - String.length s)); simpl;
    [trivial | discriminate].
Qed.

Lemma Z_range_check (f : Z -> bool) lo len z :
  forallb f (Z_range lo len) = true -> lo <= z < lo + len -> f z = true.
Proof.
  intros H Hz. rewrite forallb_forall in H. apply H.
  unfold Z_range. apply in_map_iff. exists (Z.to_nat (z - lo)). split; [lia | ].
  apply in_seq. lia.
Qed.

Lemma two_digits k :
  0 <= k <= 99 -> padStart (Number_toString (Num k)) 2 "0" = zero_padded 2 k.
Proof.
  intros H. apply String.eqb_eq.
  apply (Z_range_check
           (fun k => String.eqb (padStart (Number_toString (Num k)) 2 "0") (zero_padded 2 k))
           0 100); [vm_compute; reflexivity | lia].
Qed.

Lemma four_digits y :
  1000 <= y <= 9999 -> Number_toString (Num y) = zero_padded 4 y.
Proof.
  intros H. apply String.eqb_eq.
  apply (Z_range_check
           (fun y => String.eqb (Number_toString (Num y)) (zero_padded 4 y))
           1000 9000); [vm_compute; reflexivity | lia].
Qed.

(** ** Global replacement *)

Lemma prefix_cons a p c t :
  String.prefix (String a p) (String c t) = Ascii.eqb c a && String.prefix p t.
Proof.
  simpl. destruct (ascii_dec a c) as [-> | N].
  - now rewrite Ascii.eqb_refl.
  - destruct (Ascii.eqb_spec c a); [congruence | reflexivity].
Qed.

Lemma prefix_inv a p s :
  String.prefix (String a p) s = true ->
  exists r, s = String a r /\ String.prefix p r = true.
Proof.
  destruct s as [| c t]; [discriminate | ].
  rewrite prefix_cons. intros H. apply andb_prop in H as [E P].
  apply Ascii.eqb_eq in E. subst c. now exists t.
Qed.

Lemma prefix_nil t : String.prefix EmptyString t = true.
Proof. now destruct t. Qed.

Lemma replace_hit4 a rep r :
  (replace_global (String a (String a (String a (String a EmptyString)))) rep
    (String a (String a (String a (String a r))))
  = rep ++ replace_global (String a (String a (String a (String a EmptyString)))) rep r)%string.
Proof.
  unfold replace_global. cbn [replace_from String.length Nat.sub].
  now rewrite !prefix_cons, !Ascii.eqb_refl, prefix_nil.
Qed.

Lemma replace_hit2 a rep r :
  (replace_global (String a (String a EmptyString)) rep (String a (String a r))
  = rep ++ replace_global (String a (String a EmptyString)) rep r)%string.
Proof.
  unfold replace_global. cbn [replace_from String.length Nat.sub].
  now rewrite !prefix_cons, !Ascii.eqb_refl, prefix_nil.
Qed.

Lemma replace_miss a p rep c r :
  String.prefix (String a p) (String c r) = false ->
  replace_global (String a p) rep (String c r)
  = String c (replace_global (String a p) rep r).
Proof. intros H. unfold replace_global. cbn [replace_from]. now rewrite H. Qed.

Lemma prefix_one a t : String.prefix (String a EmptyString) t = head_is a t.
Proof.
  destruct t as [| c t]; [reflexivity | ].
  rewrite prefix_cons. destruct t; apply andb_true_r.
Qed.

Lemma replace_free_app a p rep pre t :
  occurs a pre = false ->
  (replace_global (String a p) rep (pre ++ t) = pre ++ replace_global (String a p) rep t)%string.
Proof.
  unfold replace_global. induction pre as [| c pre IH]; intros F; [reflexivity | ].
  simpl in F. apply orb_false_elim in F as [Fc Fp].
  change (String c pre ++ t)%string with (String c (pre ++ t)%string).
  cbn [replace_from]. rewrite prefix_cons, Fc. cbn [andb].
  change (String c pre ++ ?x)%string with (String c (pre ++ x)%string).
  f_equal. now apply IH.
Qed.

Lemma replace_head a p rep c t :
  Ascii.eqb a c = false -> rep <> EmptyString -> occurs c rep = false ->
  head_is c (replace_global (String a p) rep t) = head_is c t.
Proof.
  intros Hac Hne Hfree. unfold replace_global.
  destruct t as [| x t]; [reflexivity | ].
  cbn [replace_from]. rewrite prefix_cons.
  destruct (Ascii.eqb_spec x a) as [-> | Hx]; cbn [andb].
  - destruct (String.prefix p t).
    + destruct rep as [| r0 rep]; [congruence | ].
      simpl in *. apply orb_false_elim in Hfree as [-> _]. now rewrite Hac.
    + reflexivity.
  - reflexivity.
Qed.

Lemma concat_cons x l :
  String.concat "" (x :: l) = (x ++ String.concat "" l)%string.
Proof.
  destruct l; simpl; [ | reflexivity].
  induction x; simpl; congruence.
Qed.

Ltac peel2 H r :=
  let r1 := fresh "r" in
  let E := fresh "E" in
  apply prefix_inv in H as (r1 & E & H); injection E as -> ->;
  apply prefix_inv in H as (r & -> & _).

Ltac peel4 H r :=
  let r1 := fresh "r" in
  let r2 := fresh "r" in
  let r3 := fresh "r" in
  let E := fresh "E" in
  apply prefix_inv in H as (r1 & E & H); injection E as -> ->;
  apply prefix_inv in H as (r2 & -> & H);
  apply prefix_inv in H as (r3 & -> & H);
  apply prefix_inv in H as (r & -> & _).

(** The pieces of a pattern spell the pattern. *)
Lemma tokenize_source_bounded n :
  forall s, (String.length s <= n)%nat ->
  String.concat "" (map piece_source (tokenize s)) = s.
Proof.
  induction n as [| n IH]; intros s Hn.
  - destruct s; [reflexivity | simpl in Hn; lia].
  - destruct s as [| c r]; [reflexivity | ].
    unfold tokenize. cbn [tokenize_from].
    destruct (String.prefix "yyyy" (String c r)) eqn:Py;
      [ | destruct (String.prefix "mm" (String c r)) eqn:Pm;
          [ | destruct (String.prefix "dd" (String c r)) eqn:Pd ] ].
    + peel4 Py x1. cbn [tokenize_from map]. rewrite concat_cons.
      fold (tokenize x1). rewrite IH by (simpl in Hn; lia). reflexivity.
    + peel2 Pm x. cbn [tokenize_from map]. rewrite concat_cons.
      fold (tokenize x). rewrite IH by (simpl in Hn; lia). reflexivity.
    + peel2 Pd x. cbn [tokenize_from map]. rewrite concat_cons.
      fold (tokenize x). rewrite IH by (simpl in Hn; lia). reflexivity.
    + cbn [map]. rewrite concat_cons. fold (tokenize r).
      rewrite IH by (simpl in Hn; lia). reflexivity.
Qed.

Section Substitution.

Variables year month day : string.
Hypothesis year_nonempty : year <> EmptyString.
Hypothesis month_nonempty : month <> EmptyString.
Hypothesis year_no_m : occurs "m" year = false.
Hypothesis year_no_d : occurs "d" year = false.
Hypothesis month_no_d : occurs "d" month = false.

(** The three replacements, one after the other, do what one pass over the
    pieces does: a replacement holds no letter of a later token, and is not
    empty, so that it neither is matched nor brings two letters together. *)
Lemma three_passes_bounded n :
  forall s, (String.length s <= n)%nat ->
  replace_global "dd" day (replace_global "mm" month (replace_global "yyyy" year s))
  = substitute_tokens year month day s.
Proof.
  induction n as [| n IH]; intros s Hn.
  - destruct s; [reflexivity | simpl in Hn; lia].
  - destruct s as [| c r]; [reflexivity | ].
    unfold substitute_tokens, tokenize. cbn [tokenize_from].
    destruct (String.prefix "yyyy" (String c r)) eqn:Py;
      [ | destruct (String.prefix "mm" (String c r)) eqn:Pm;
          [ | destruct (String.prefix "dd" (String c r)) eqn:Pd ] ].
    + peel4 Py x1. cbn [tokenize_from map]. rewrite concat_cons. cbn [render].
      fold (tokenize x1). fold (substitute_tokens year month day x1).
      rewrite <- IH by (simpl in Hn; lia).
      rewrite replace_hit4.
      rewrite replace_free_app by exact year_no_m.
      now rewrite replace_free_app by exact year_no_d.
    + peel2 Pm x. cbn [tokenize_from map]. rewrite concat_cons. cbn [render].
      fold (tokenize x). fold (substitute_tokens year month day x).
      rewrite <- IH by (simpl in Hn; lia).
      rewrite !(replace_miss "y") by (rewrite prefix_cons; reflexivity).
      rewrite replace_hit2.
      now rewrite replace_free_app by exact month_no_d.
    + peel2 Pd x. cbn [tokenize_from map]. rewrite concat_cons. cbn [render].
      fold (tokenize x). fold (substitute_tokens year month day x).
      rewrite <- IH by (simpl in Hn; lia).
      rewrite !(replace_miss "y") by (rewrite prefix_cons; reflexivity).
      rewrite !(replace_miss "m") by (rewrite prefix_cons; reflexivity).
      now rewrite replace_hit2.
    + cbn [map]. rewrite concat_cons. cbn [render].
      fold (tokenize r). fold (substitute_tokens year month day r).
      rewrite <- IH by (simpl in Hn; lia).
      rewrite (replace_miss "y") by exact Py.
      assert (Rm : forall x, head_is "m" x = head_is "m" r ->
                   replace_global "mm" month (String c x)
                   = String c (replace_global "mm" month x)).
      { intros x Hx. apply replace_miss.
        rewrite prefix_cons, prefix_one, Hx.
        now rewrite prefix_cons, prefix_one in Pm. }
      rewrite Rm
        by (apply replace_head; [reflexivity | exact year_nonempty | exact year_no_m]).
      assert (Rd : forall x, head_is "d" x = head_is "d" r ->
                   replace_global "dd" day (String c x)
                   = String c (replace_global "dd" day x)).
      { intros x Hx. apply replace_miss.
        rewrite prefix_cons, prefix_one, Hx.
        now rewrite prefix_cons, prefix_one in Pd. }
      rewrite Rd; [reflexivity | ].
      rewrite replace_head
        by (first [reflexivity | exact month_nonempty | exact month_no_d]).
      apply replace_head; [reflexivity | exact year_nonempty | exact year_no_d].
Qed.

End Substitution.

(** ** Pattern formatting *)

Lemma not_numeric_absent c s :
  occurs c numeric_chars = false ->
  (occurs c s = true -> occurs c numeric_chars = true) ->
  occurs c s = false.
Proof.
  intros Hc Hs. destruct (occurs c s); [ | reflexivity].
  rewrite Hs in Hc by reflexivity. discriminate.
Qed.

(** The code is the one-pass substitution, with the year printed as a plain
    number. *)
Lemma formatDateByString_one_pass h date format :
  formatDateByString h date format
  = substitute_tokens
      (Number_toString (getFullYear h date))
      (padStart (Number_toString (num_add (getMonth h date) (Num 1))) 2 "0")
      (padStart (Number_toString (getDate h date)) 2 "0")
      format.
Proof.
  unfold formatDateByString.
  apply (three_passes_bounded _ _ _) with (n := String.length format);
    try apply Number_toString_nonempty;
    try (apply padStart_nonempty; apply Number_toString_nonempty);
    try (apply not_numeric_absent; [reflexivity | ];
         first [ apply Number_toString_numeric
               | apply padStart_numeric; apply Number_toString_numeric ]).
  apply Nat.le_refl.
Qed.

(** No replacement holds a [$], so each is inserted as it is. *)
Lemma replacements_without_dollar h date :
  occurs "$" (Number_toString (getFullYear h date)) = false
  /\ occurs "$" (padStart (Number_toString (num_add (getMonth h date) (Num 1))) 2 "0")
     = false
  /\ occurs "$" (padStart (Number_toString (getDate h date)) 2 "0") = false.
Proof.
  repeat split; apply not_numeric_absent; try reflexivity;
    first [ apply Number_toString_numeric
          | apply padStart_numeric; apply Number_toString_numeric ].
Qed.

Lemma getters_of_valid h date y m d :
  getFullYear h date = Num y -> getMonth h date = Num m -> getDate h date = Num d ->
  0 <= m <= 11 /\ 1 <= d <= 31.
Proof.
  unfold getFullYear, getMonth, getDate. destruct (getTime date) as [| t];
    [discriminate | ].
  intros [= <-] [= <-] [= <-].
  destruct (day_of_fields (LocalTime h t)) as (Bm & Bd & _).
  pose proof (month_length_bounds (YearFromTime (LocalTime h t))
                (MonthFromTime (LocalTime h t))).
  lia.
Qed.

(** C5, as the claim states it, fails on a year of fewer than four digits:
    15 June 999 under the pattern ["yyyy-mm-dd"] prints as ["999-06-15"], the
    year is not padded. *)
Lemma format_year_999_not_padded :
  formatDateByString host_utc (new_Date host_utc (Num 999) (Num 5) (Num 15)) "yyyy-mm-dd"
  = "999-06-15"%string /\
  ~ formatted_as_specified host_utc
      (new_Date host_utc (Num 999) (Num 5) (Num 15)) "yyyy-mm-dd".
Proof.
  split; [vm_compute; reflexivity | ].
  intros (y & m & d & Hy & Hm & Hd & E).
  vm_compute in Hy, Hm, Hd. injection Hy as <-. injection Hm as <-. injection Hd as <-.
  vm_compute in E. discriminate E.
Qed.

(** C5, amended.  For every date and every pattern, [formatDateByString]
    replaces each [yyyy] of the pattern by the year printed as a plain
    number, each [mm] by the 1-based month and each [dd] by the day, the last
    two zero-padded to two digits, and copies every other character; the
    pieces are found from left to right and spell the pattern.  For a valid
    date whose year is from 1000 to 9999 the year so printed is the
    zero-padded 4-digit year, and the formatting is the one specified. *)
Theorem formatDateByString_substitutes h date format :
  formatDateByString h date format
  = substitute_tokens
      (Number_toString (getFullYear h date))
      (padStart (Number_toString (num_add (getMonth h date) (Num 1))) 2 "0")
      (padStart (Number_toString (getDate h date)) 2 "0")
      format
  /\ String.concat "" (map piece_source (tokenize format)) = format
  /\ (forall y m d,
        getFullYear h date = Num y -> getMonth h date = Num m ->
        getDate h date = Num d ->
        padStart (Number_toString (num_add (getMonth h date) (Num 1))) 2 "0"
        = zero_padded 2 (m + 1)
        /\ padStart (Number_toString (getDate h date)) 2 "0" = zero_padded 2 d
        /\ (1000 <= y <= 9999 ->
            Number_toString (getFullYear h date) = zero_padded 4 y
            /\ formatted_as_specified h date format)).
Proof.
  split; [apply formatDateByString_one_pass | ].
  split; [apply tokenize_source_bounded with (n := String.length format); apply Nat.le_refl | ].
  intros y m d Hy Hm Hd.
  destruct (getters_of_valid h date y m d Hy Hm Hd) as [Bm Bd].
  assert (EM : padStart (Number_toString (num_add (getMonth h date) (Num 1))) 2 "0"
               = zero_padded 2 (m + 1)).
  { rewrite Hm. cbn [num_add]. apply two_digits. lia. }
  assert (ED : padStart (Number_toString (getDate h date)) 2 "0" = zero_padded 2 d).
  { rewrite Hd. apply two_digits. lia. }
  split; [exact EM | split; [exact ED | ]].
  intros By.
  assert (EY : Number_toString (getFullYear h date) = zero_padded 4 y).
  { rewrite Hy. now apply four_digits. }
  split; [exact EY | ].
  exists y, m, d. repeat split; try assumption.
  rewrite formatDateByString_one_pass. now rewrite EY, EM, ED.
Qed.

Lemma formatDateByString_substitutes_witness :
  getFullYear host_utc (new_Date host_utc (Num 2023) (Num 2) (Num 15)) = Num 2023 /\
  getMonth host_utc (new_Date host_utc (Num 2023) (Num 2) (Num 15)) = Num 2 /\
  getDate host_utc (new_Date host_utc (Num 2023) (Num 2) (Num 15)) = Num 15 /\
  1000 <= 2023 <= 9999 /\
  formatDateByString host_utc (new_Date host_utc (Num 2023) (Num 2) (Num 15)) "yyyy/mm/dd"
  = "2023/03/15"%string /\
  formatted_as_specified host_utc
    (new_Date host_utc (Num 2023) (Num 2) (Num 15)) "yyyy/mm/dd".
Proof.
  assert (Hy : getFullYear host_utc (new_Date host_utc (Num 2023) (Num 2) (Num 15))
               = Num 2023) by (vm_compute; reflexivity).
  assert (Hm : getMonth host_utc (new_Date host_utc (Num 2023) (Num 2) (Num 15))
               = Num 2) by (vm_compute; reflexivity).
  assert (Hd : getDate host_utc (new_Date host_utc (Num 2023) (Num 2) (Num 15))
               = Num 15) by (vm_compute; reflexivity).
  assert (By : 1000 <= 2023 <= 9999) by lia.
  repeat (split; [assumption | ]).
  split; [vm_compute; reflexivity | ].
  exact (proj2 (proj2 (proj2 (proj2 (proj2
           (formatDateByString_substitutes host_utc
              (new_Date host_utc (Num 2023) (Num 2) (Num 15)) "yyyy/mm/dd"))
           2023 2 15 Hy Hm Hd)) By)).
Defined.

(** ** Range validation *)

Lemma date_lt_iff a b : date_lt a b = true <-> strictly_before a b.
Proof.
  unfold date_lt, strictly_before, num_lt.
  destruct (getTime a) as [| ta], (getTime b) as [| tb]; split;
    try discriminate;
    try (intros (x & y & E1 & E2 & _); discriminate).
  - intros H. apply Z.ltb_lt in H. now exists ta, tb.
  - intros (x & y & [= <-] & [= <-] & H). now apply Z.ltb_lt.
Qed.

Lemma date_gt_iff a b : date_gt a b = true <-> strictly_before b a.
Proof. unfold date_gt, num_gt. apply (date_lt_iff b a). Qed.

Lemma isDateInRange_false_iff min max d :
  isDateInRange min max d = false <->
  (exists m, min = Some m /\ strictly_before d m) \/
  (exists m, max = Some m /\ strictly_before m d).
Proof.
  unfold isDateInRange. split.
  - destruct min as [lo |].
    + destruct (date_lt d lo) eqn:L.
      * intros _. left. exists lo. split; [reflexivity | now apply date_lt_iff].
      * destruct max as [hi |]; [ | discriminate].
        destruct (date_gt d hi) eqn:G; [ | discriminate].
        intros _. right. exists hi. split; [reflexivity | now apply date_gt_iff].
    + destruct max as [hi |]; [ | discriminate].
      destruct (date_gt d hi) eqn:G; [ | discriminate].
      intros _. right. exists hi. split; [reflexivity | now apply date_gt_iff].
  - intros [(m & -> & B) | (m & -> & B)].
    + apply date_lt_iff in B. now rewrite B.
    + apply date_gt_iff in B. rewrite B. now destruct min as [lo |]; [destruct (date_lt d lo) | ].
Qed.

(** C2.  For every optional minimum, optional maximum and candidate date,
    the candidate is in range exactly when it is not strictly before the
    minimum and not strictly after the maximum.  Hence a candidate equal to a
    bound is in range, an absent bound constrains nothing on its side, and
    between two valid bounds with time values [lo] and [hi] the dates in range
    are those with [lo <= t <= hi]. *)
Theorem isDateInRange_inclusive (min max : option Date) (d : Date) :
  (isDateInRange min max d = true <->
   (forall m, min = Some m -> ~ strictly_before d m) /\
   (forall m, max = Some m -> ~ strictly_before m d))
  /\ isDateInRange (Some d) max d = isDateInRange None max d
  /\ isDateInRange min (Some d) d = isDateInRange min None d
  /\ isDateInRange (Some d) (Some d) d = true
  /\ isDateInRange None None d = true
  /\ (forall lo hi t,
        isDateInRange (Some (mkDate (Num lo))) (Some (mkDate (Num hi))) (mkDate (Num t))
        = true <-> lo <= t <= hi).
Proof.
  assert (Irr : forall x, date_lt x x = false).
  { intros x. unfold date_lt, num_lt. destruct (getTime x); [reflexivity | apply Z.ltb_irrefl]. }
  split; [ | split; [ | split; [ | split; [ | split ] ] ] ].
  - split.
    + intros H. split; intros m -> B.
      * assert (F : isDateInRange (Some m) max d = false)
          by (apply isDateInRange_false_iff; left; now exists m).
        congruence.
      * assert (F : isDateInRange min (Some m) d = false)
          by (apply isDateInRange_false_iff; right; now exists m).
        congruence.
    + intros [Hlo Hhi]. destruct (isDateInRange min max d) eqn:E; [reflexivity | ].
      apply isDateInRange_false_iff in E as [(m & Em & B) | (m & Em & B)].
      * now destruct (Hlo m Em).
      * now destruct (Hhi m Em).
  - unfold isDateInRange. now rewrite Irr.
  - unfold isDateInRange, date_gt, num_gt. fold (date_lt d d). rewrite Irr.
    now destruct min as [lo |]; [destruct (date_lt d lo) | ].
  - unfold isDateInRange, date_gt, num_gt. fold (date_lt d d). now rewrite Irr.
  - reflexivity.
  - intros lo hi t. unfold isDateInRange, date_gt, num_gt, date_lt, num_lt.
    cbn [getTime].
    destruct (Z.ltb_spec t lo), (Z.ltb_spec hi t); split; intros; try discriminate;
      try reflexivity; lia.
Qed.

Lemma isDateInRange_inclusive_witness :
  isDateInRange (min_bound host_utc (from_jan_10 true)) (max_bound host_utc (from_jan_10 true))
    (new_Date host_utc (Num 2024) (Num 0) (Num 10)) = true /\
  isDateInRange (min_bound host_utc (from_jan_10 true)) (max_bound host_utc (from_jan_10 true))
    (new_Date host_utc (Num 2024) (Num 0) (Num 5)) = false /\
  (isDateInRange (Some (mkDate (Num 10))) (Some (mkDate (Num 20))) (mkDate (Num 10)) = true
   <-> 10 <= 10 <= 20).
Proof.
  split; [vm_compute; reflexivity | split; [vm_compute; reflexivity | ] ].
  exact (proj2 (proj2 (proj2 (proj2 (proj2
           (isDateInRange_inclusive None None (mkDate NaN)))))) 10 20 10).
Defined.

(** C1, as the claim states it, fails when the cursor year is from 0 to 99:
    with a minimum of 1 January 1900 and the cursor on year 50, the candidate
    1 January 50 is before the minimum, yet the month button in month-only
    mode and the day button in day mode store 1 January 1950 and report it.
    It also fails beyond the years a Date can hold: with a maximum of
    1 January 2030 and the cursor on year 300000 the attempt stores an
    Invalid Date. *)
Lemma out_of_range_pick_in_year_50 :
  is_local_date host_utc (mkDate (Num (-60589296000000))) 50 0 1 /\
  out_of_bounds host_utc from_1900 (mkDate (Num (-60589296000000))) /\
  includeDays from_1900 = false /\
  handleMonthSelect host_utc from_1900 (cursor_at 50 0 months) (Num 0)
  = (mkState (Some (new_Date host_utc (Num 1950) (Num 0) (Num 1)))
       (Num 50) (Num 0) false months,
     [new_Date host_utc (Num 1950) (Num 0) (Num 1)]) /\
  ~ month_attempt_as_specified host_utc from_1900 (cursor_at 50 0 months) 0 /\
  out_of_bounds host_utc from_1900_days (mkDate (Num (-60589296000000))) /\
  handleDaySelect host_utc from_1900_days (cursor_at 50 0 days) (Num 1)
  = (mkState (Some (new_Date host_utc (Num 1950) (Num 0) (Num 1)))
       (Num 50) (Num 0) false days,
     [new_Date host_utc (Num 1950) (Num 0) (Num 1)]) /\
  ~ day_attempt_as_specified host_utc from_1900_days (cursor_at 50 0 days) 1 /\
  handleMonthSelect host_utc until_2030 (cursor_at 300000 0 months) (Num 0)
  = (mkState (Some (mkDate NaN)) (Num 300000) (Num 0) false months, [mkDate NaN]).
Proof.
  assert (L : is_local_date host_utc (mkDate (Num (-60589296000000))) 50 0 1).
  { unfold is_local_date. repeat (split; [vm_compute; reflexivity | ]).
    eexists. split; [reflexivity | vm_compute; reflexivity]. }
  assert (B : out_of_bounds host_utc from_1900 (mkDate (Num (-60589296000000)))).
  { left. eexists. split; [reflexivity | ].
    do 2 eexists. split; [reflexivity | split; [reflexivity | ] ].
    vm_compute; reflexivity. }
  assert (B' : out_of_bounds host_utc from_1900_days (mkDate (Num (-60589296000000)))).
  { left. eexists. split; [reflexivity | ].
    do 2 eexists. split; [reflexivity | split; [reflexivity | ] ].
    vm_compute; reflexivity. }
  split; [exact L | split; [exact B | split; [reflexivity | ] ] ].
  split; [vm_compute; reflexivity | ].
  split.
  { intros H. specialize (H eq_refl 50 _ eq_refl L B).
    vm_compute in H. discriminate H. }
  split; [exact B' | split; [vm_compute; reflexivity | ] ].
  split; [ | vm_compute; reflexivity].
  intros H. specialize (H 50 0 _ eq_refl eq_refl L B').
  vm_compute in H. discriminate H.
Qed.

(** C1, amended.  Whenever the date a handler builds is outside the bounds,
    [handleDaySelect], and [handleMonthSelect] in month-only mode, return the
    state as it was (selection, open flag, cursor and view mode) and make no
    [onChange] call.  On a host with one constant offset and for a cursor
    year from -271820 to 275759 outside 0..99 the date built is the candidate
    itself, so that an attempt on a day of the cursor month, or on the 1st of
    a month of the cursor year, that is outside the bounds changes nothing
    and calls nothing. *)
Theorem out_of_range_selection_is_noop h p s :
  (forall day,
     out_of_bounds h p (new_Date h (currentYear s) (currentMonth s) day) ->
     handleDaySelect h p s day = (s, []))
  /\ (forall monthIndex,
        includeDays p = false ->
        out_of_bounds h p (new_Date h (currentYear s) monthIndex (Num 1)) ->
        handleMonthSelect h p s monthIndex = (s, []))
  /\ (zone_within_a_day h ->
      forall y, currentYear s = Num y -> literal_year y ->
        (forall day, day_attempt_as_specified h p s day)
        /\ (forall index, month_attempt_as_specified h p s index)).
Proof.
  assert (D : forall day,
             out_of_bounds h p (new_Date h (currentYear s) (currentMonth s) day) ->
             handleDaySelect h p s day = (s, [])).
  { intros day H. apply isDateInRange_false_iff in H.
    unfold handleDaySelect. now rewrite H. }
  assert (M : forall monthIndex,
             includeDays p = false ->
             out_of_bounds h p (new_Date h (currentYear s) monthIndex (Num 1)) ->
             handleMonthSelect h p s monthIndex = (s, [])).
  { intros monthIndex Hmode H. apply isDateInRange_false_iff in H.
    unfold handleMonthSelect. now rewrite Hmode, H. }
  split; [exact D | split; [exact M | ] ].
  intros Hz y Ey Hlit. split.
  - intros day y' m d Ey' Em Hd Hout. rewrite Ey in Ey'. injection Ey' as <-.
    apply D. rewrite Ey, Em.
    now rewrite <- (new_Date_is_the_local_date h d y m day Hz Hlit Hd).
  - intros index Hmode y' d Ey' Hd Hout. rewrite Ey in Ey'. injection Ey' as <-.
    apply M; [exact Hmode | ]. rewrite Ey.
    now rewrite <- (new_Date_is_the_local_date h d y index 1 Hz Hlit Hd).
Qed.

Lemma out_of_range_selection_is_noop_witness :
  zone_within_a_day host_utc /\
  currentYear (cursor_at 2024 0 days) = Num 2024 /\
  currentMonth (cursor_at 2024 0 days) = Num 0 /\ literal_year 2024 /\
  is_local_date host_utc (new_Date host_utc (Num 2024) (Num 0) (Num 5)) 2024 0 5 /\
  out_of_bounds host_utc (from_jan_10 true) (new_Date host_utc (Num 2024) (Num 0) (Num 5)) /\
  handleDaySelect host_utc (from_jan_10 true) (cursor_at 2024 0 days) (Num 5)
  = (cursor_at 2024 0 days, []) /\
  includeDays (from_jan_10 false) = false /\
  is_local_date host_utc (new_Date host_utc (Num 2024) (Num 0) (Num 1)) 2024 0 1 /\
  out_of_bounds host_utc (from_jan_10 false) (new_Date host_utc (Num 2024) (Num 0) (Num 1)) /\
  handleMonthSelect host_utc (from_jan_10 false) (cursor_at 2024 0 months) (Num 0)
  = (cursor_at 2024 0 months, []).
Proof.
  assert (Hz : zone_within_a_day host_utc)
    by (exists 0; split; [unfold msPerDay; lia | reflexivity]).
  assert (Hlit : literal_year 2024) by (unfold literal_year; lia).
  assert (L5 : is_local_date host_utc (new_Date host_utc (Num 2024) (Num 0) (Num 5))
                 2024 0 5).
  { unfold is_local_date. repeat (split; [vm_compute; reflexivity | ]).
    eexists. split; [vm_compute; reflexivity | vm_compute; reflexivity]. }
  assert (L1 : is_local_date host_utc (new_Date host_utc (Num 2024) (Num 0) (Num 1))
                 2024 0 1).
  { unfold is_local_date. repeat (split; [vm_compute; reflexivity | ]).
    eexists. split; [vm_compute; reflexivity | vm_compute; reflexivity]. }
  assert (H5 : out_of_bounds host_utc (from_jan_10 true)
                 (new_Date host_utc (Num 2024) (Num 0) (Num 5)))
    by (left; eexists; split; [reflexivity | ];
        do 2 eexists; split; [reflexivity | split; [reflexivity | ] ];
        vm_compute; reflexivity).
  assert (H1 : out_of_bounds host_utc (from_jan_10 false)
                 (new_Date host_utc (Num 2024) (Num 0) (Num 1)))
    by (left; eexists; split; [reflexivity | ];
        do 2 eexists; split; [reflexivity | split; [reflexivity | ] ];
        vm_compute; reflexivity).
  split; [exact Hz | ]. do 2 (split; [reflexivity | ]).
  split; [exact Hlit | split; [exact L5 | split; [exact H5 | ] ] ].
  split.
  { exact (proj1 (proj2 (proj2 (out_of_range_selection_is_noop host_utc
                                   (from_jan_10 true) (cursor_at 2024 0 days)))
                    Hz 2024 eq_refl Hlit)
             5 2024 0 _ eq_refl eq_refl L5 H5). }
  split; [reflexivity | split; [exact L1 | split; [exact H1 | ] ] ].
  exact (proj2 (proj2 (proj2 (out_of_range_selection_is_noop host_utc
                                (from_jan_10 false) (cursor_at 2024 0 months)))
                  Hz 2024 eq_refl Hlit)
           0 eq_refl 2024 _ eq_refl L1 H1).
Defined.

(** ** The length of a month *)

(** C6, as the claim states it, fails on year 0: the constructor reads the
    year 0 as 1900, which is not a leap year, so February of year 0 gets 28
    days although 0 is divisible by 400 (and is a year of 366 days for the
    Date functions themselves).  It also fails beyond the years a Date can
    hold, where the result is [NaN], and on a host that skips the last day of
    the month: on Kiritimati, where 31 December 1994 does not exist,
    December 1994 gets 1 day. *)
Lemma getDaysInMonth_year_zero :
  getDaysInMonth host_utc (Num 0) (Num 1) = Num 28 /\
  gregorian_leap 0 = true /\ DaysInYear 0 = 366 /\
  ~ days_in_month_as_specified host_utc 0 1 /\
  getDaysInMonth host_utc (Num 300000) (Num 0) = NaN /\
  ~ days_in_month_as_specified host_utc 300000 0 /\
  getDaysInMonth host_kiritimati (Num 1994) (Num 11) = Num 1 /\
  ~ days_in_month_as_specified host_kiritimati 1994 11.
Proof.
  split; [vm_compute; reflexivity | do 2 (split; [reflexivity | ]) ].
  split; [ | split; [vm_compute; reflexivity | split; [ | split ] ] ].
  - intros (n & Hn & _ & _ & Hleap).
    vm_compute in Hn. injection Hn as <-.
    destruct (Hleap eq_refl) as [_ H]. specialize (H eq_refl). discriminate H.
  - intros (n & Hn & _). vm_compute in Hn. discriminate Hn.
  - vm_compute; reflexivity.
  - intros (n & Hn & _ & Hlen & _). vm_compute in Hn. injection Hn as <-.
    vm_compute in Hlen. discriminate Hlen.
Qed.

(** C6, amended.  On a host whose local time is UTC plus one constant
    offset, of a day at most, for every month index from 0 to 11 and every
    year from -271820 to 275759 other than 0, [getDaysInMonth] returns the
    length of that month, one of 28, 29, 30 and 31, and for February it is 29
    exactly when the year is a Gregorian leap year. *)
Theorem getDaysInMonth_month_length h y m :
  zone_within_a_day h -> -271820 <= y <= 275759 -> y <> 0 -> 0 <= m <= 11 ->
  days_in_month_as_specified h y m.
Proof.
  intros Hz Hy H0 Hm. exists (month_length y m).
  rewrite getDaysInMonth_value by assumption.
  rewrite month_length_constructor_year by exact H0.
  split; [reflexivity | ]. split; [ | split; [reflexivity | ] ].
  - unfold month_length. month_split Hm; try destruct (gregorian_leap y); cbn; lia.
  - intros ->. unfold month_length. destruct (gregorian_leap y); split; intros;
      try reflexivity; try discriminate; lia.
Qed.

Lemma getDaysInMonth_month_length_witness :
  zone_within_a_day host_utc /\ -271820 <= 2024 <= 275759 /\ 2024 <> 0 /\ 0 <= 1 <= 11 /\
  days_in_month_as_specified host_utc 2024 1.
Proof.
  assert (Hz : zone_within_a_day host_utc)
    by (exists 0; split; [unfold msPerDay; lia | reflexivity]).
  assert (Hy : -271820 <= 2024 <= 275759) by lia.
  assert (H0 : 2024 <> 0) by discriminate.
  assert (Hm : 0 <= 1 <= 11) by lia.
  repeat (split; [assumption | ]).
  exact (getDaysInMonth_month_length host_utc 2024 1 Hz Hy H0 Hm).
Defined.

(** ** Picking a month in month-only mode *)




(** ** Disabled cells of the month and year grids *)

(** The grids hold one cell per month name and per year of the window, each
    with the flag of its cell. *)
Lemma month_grid_cells h p s :
  month_grid h p s
  = map (fun i => (nth (Z.to_nat i) monthNames ""%string, month_cell_disabled h p s i))
      (Z_range 0 12).
Proof. reflexivity. Qed.

Lemma year_grid_cells h p s year b :
  In (year, b) (year_grid h p s) <->
  In year (yearRange s) /\ b = year_cell_disabled h p year.
Proof.
  unfold year_grid. rewrite in_map_iff. split.
  - intros (x & [= <- <-] & Hx). now split.
  - intros [Hx ->]. now exists year.
Qed.





(** ** The external value *)

Lemma value_effect_syncs h p s :
  selectedDate (value_effect h p s) = value p
  /\ (forall v, value p = Some v ->
        currentYear (value_effect h p s) = getFullYear h v
        /\ currentMonth (value_effect h p s) = getMonth h v)
  /\ (value p = None ->
        currentYear (value_effect h p s) = currentYear s
        /\ currentMonth (value_effect h p s) = currentMonth s)
  /\ isOpen (value_effect h p s) = isOpen s
  /\ viewMode (value_effect h p s) = viewMode s.
Proof.
  unfold value_effect. destruct (value p) as [v |]; cbn.
  - split; [reflexivity | ]. split; [now intros ? [= <-] | ].
    split; [discriminate | now split].
  - split; [reflexivity | ]. split; [discriminate | now repeat split].
Qed.

(** The initialisers alone do not seed the cursor from every value: the
    month of a January value is 0, which [||] passes over for the month of
    today.  The effect of the first render then sets the cursor. *)
Example initial_state_january :
  getMonth host_utc jan_15_2023 = Num 0
  /\ currentMonth (initial_state host_utc with_jan_15_2023) = Num 5
  /\ currentMonth (mount host_utc with_jan_15_2023) = Num 0.
Proof. repeat split; vm_compute; reflexivity. Qed.

(** C4.  For every supplied value, the stored selection is that value itself
    from the first render on, absent when the value is absent; after mounting
    (the first render and its effect) and after the effect of any later
    change of the value, the selection is the value and, when the value is
    present, the cursor year and month are the year and month of the value. *)
Theorem value_seeds_and_resyncs h p :
  selectedDate (initial_state h p) = value p
  /\ (selectedDate (mount h p) = value p
   /\ forall v, value p = Some v ->
        currentYear (mount h p) = getFullYear h v
        /\ currentMonth (mount h p) = getMonth h v)
  /\ (forall s,
        selectedDate (value_effect h p s) = value p
        /\ forall v, value p = Some v ->
             currentYear (value_effect h p s) = getFullYear h v
             /\ currentMonth (value_effect h p s) = getMonth h v).
Proof.
  split; [reflexivity | ]. split.
  - unfold mount.
    destruct (value_effect_syncs h p (initial_state h p)) as (S & C & _).
    now split.
  - intros s. destruct (value_effect_syncs h p s) as (S & C & _). now split.
Qed.

Lemma value_seeds_and_resyncs_witness :
  value with_jan_15_2023 = Some jan_15_2023 /\
  selectedDate (mount host_utc with_jan_15_2023) = Some jan_15_2023 /\
  currentYear (mount host_utc with_jan_15_2023) = Num 2023 /\
  currentMonth (mount host_utc with_jan_15_2023) = Num 0.
Proof.
  split; [reflexivity | ].
  split; [exact (proj1 (proj1 (proj2
                   (value_seeds_and_resyncs host_utc with_jan_15_2023)))) | ].
  exact (proj2 (proj1 (proj2 (value_seeds_and_resyncs host_utc with_jan_15_2023)))
           jan_15_2023 eq_refl).
Defined.

(** ** Navigation *)

(** C7.  From month index 11 [next] sets the month to 0 and adds 1 to the
    year; from month index 0 [prev] sets the month to 11 and takes 1 from the
    year; from any other month [next] adds 1 to the month and [prev] takes 1
    from it, the year unchanged.  So a cursor month in 0..11 stays in 0..11.
    Selection, open flag and view mode are never touched. *)
Theorem navigateMonth_wraps sel y m o v :
  let s := mkState sel (Num y) (Num m) o v in
  (m = 11 -> navigateMonth s next = mkState sel (Num (y + 1)) (Num 0) o v)
  /\ (m = 0 -> navigateMonth s prev = mkState sel (Num (y - 1)) (Num 11) o v)
  /\ (m <> 11 -> navigateMonth s next = mkState sel (Num y) (Num (m + 1)) o v)
  /\ (m <> 0 -> navigateMonth s prev = mkState sel (Num y) (Num (m - 1)) o v)
  /\ (0 <= m <= 11 ->
      forall direction, exists m',
        currentMonth (navigateMonth s direction) = Num m' /\ 0 <= m' <= 11).
Proof.
  cbv zeta. unfold navigateMonth, setCurrentYear, setCurrentMonth. cbn.
  repeat split.
  - intros ->. reflexivity.
  - intros ->. reflexivity.
  - intros H. destruct (Z.eqb_spec m 11); [contradiction | reflexivity].
  - intros H. destruct (Z.eqb_spec m 0); [contradiction | reflexivity].
  - intros H [|].
    + destruct (Z.eqb_spec m 0); cbn; eexists; (split; [reflexivity | lia]).
    + destruct (Z.eqb_spec m 11); cbn; eexists; (split; [reflexivity | lia]).
Qed.

Lemma navigateMonth_wraps_witness :
  navigateMonth (cursor_at 2024 11 days) next = cursor_at 2025 0 days /\
  navigateMonth (cursor_at 2024 0 days) prev = cursor_at 2023 11 days /\
  5 <> 11 /\ navigateMonth (cursor_at 2024 5 days) next = cursor_at 2024 6 days /\
  5 <> 0 /\ navigateMonth (cursor_at 2024 5 days) prev = cursor_at 2024 4 days.
Proof.
  assert (A : 5 <> 11) by discriminate.
  assert (B : 5 <> 0) by discriminate.
  split; [exact (proj1 (navigateMonth_wraps None 2024 11 true days) eq_refl) | ].
  split; [exact (proj1 (proj2 (navigateMonth_wraps None 2024 0 true days)) eq_refl) | ].
  split; [exact A | ].
  split; [exact (proj1 (proj2 (proj2 (navigateMonth_wraps None 2024 5 true days))) A) | ].
  split; [exact B | ].
  exact (proj1 (proj2 (proj2 (proj2 (navigateMonth_wraps None 2024 5 true days)))) B).
Defined.

(** C8.  For every cursor year [y] the year window is the 20 consecutive
    years from [y - 10] to [y + 9], with [y] as its 11th entry; year
    navigation moves the cursor year by 20 when the years grid is shown and
    by 1 otherwise, and touches nothing else. *)
Theorem yearRange_window_and_navigateYear sel y m o v :
  let s := mkState sel (Num y) m o v in
  yearRange s = map (fun i => Num (y - 10 + i)) (Z_range 0 20)
  /\ List.length (yearRange s) = 20%nat
  /\ nth 10 (yearRange s) NaN = Num y
  /\ (forall i, (i < 19)%nat ->
        num_add (nth i (yearRange s) NaN) (Num 1) = nth (S i) (yearRange s) NaN)
  /\ navigateYear s next
     = mkState sel (Num (y + match v with years => 20 | _ => 1 end)) m o v
  /\ navigateYear s prev
     = mkState sel (Num (y - match v with years => 20 | _ => 1 end)) m o v.
Proof.
  cbv zeta. split; [reflexivity | ].
  split; [reflexivity | ].
  split; [cbn; f_equal; lia | ].
  split.
  - intros i Hi. do 19 (destruct i as [| i]; [cbn; f_equal; lia | ]). lia.
  - unfold navigateYear, setCurrentYear. destruct v; cbn; split; do 2 f_equal; lia.
Qed.

Lemma yearRange_window_and_navigateYear_witness :
  yearRange (cursor_at 2024 0 years)
  = map Num [2014; 2015; 2016; 2017; 2018; 2019; 2020; 2021; 2022; 2023;
             2024; 2025; 2026; 2027; 2028; 2029; 2030; 2031; 2032; 2033] /\
  (3 < 19)%nat /\
  num_add (nth 3 (yearRange (cursor_at 2024 0 years)) NaN) (Num 1)
  = nth 4 (yearRange (cursor_at 2024 0 years)) NaN /\
  navigateYear (cursor_at 2024 0 years) next = cursor_at 2044 0 years /\
  navigateYear (cursor_at 2024 0 months) prev = cursor_at 2023 0 months.
Proof.
  assert (H : (3 < 19)%nat) by lia.
  split; [exact (proj1 (yearRange_window_and_navigateYear None 2024 (Num 0) true years)) | ].
  split; [exact H | ].
  split; [exact (proj1 (proj2 (proj2 (proj2
                   (yearRange_window_and_navigateYear None 2024 (Num 0) true years)))) 3%nat H) | ].
  split.
  - exact (proj1 (proj2 (proj2 (proj2 (proj2
             (yearRange_window_and_navigateYear None 2024 (Num 0) true years)))))).
  - exact (proj2 (proj2 (proj2 (proj2 (proj2
             (yearRange_window_and_navigateYear None 2024 (Num 0) true months)))))).
Defined.

(** ** Creation without a value *)

(** In the second variant nothing is selected from the first render on, and
    the inline trigger shows the placeholder. *)
Lemma initial_selection_absent h p :
  value p = None ->
  selectedDate (initial_state h p) = None
  /\ selectedDate (mount h p) = None
  /\ trigger_text h p (initial_state h p) = placeholder p
  /\ trigger_text h p (mount h p) = placeholder p.
Proof.
  intros H. unfold mount, value_effect, trigger_text, initial_state. rewrite H. cbn.
  now repeat split.
Qed.

(** In the first variant the effect of the first render clears the selection. *)
Lemma legacy_mount_selection_absent h p :
  Legacy.value p = None ->
  selectedDate (Legacy.mount h p) = None
  /\ Legacy.trigger_text h p (Legacy.mount h p) = Legacy.placeholder p.
Proof.
  intros H. unfold Legacy.mount, Legacy.value_effect, Legacy.trigger_text.
  cbn. now rewrite H.
Qed.

(** C9.  The first variant, created without a value on 10 June 2024: its
    initialiser [value || today] stores today as the selection, and the first
    render shows ["June 2024"] in the trigger, not the placeholder. *)
Theorem legacy_first_render_shows_today :
  Legacy.value legacy_no_value = None
  /\ selectedDate (Legacy.initial_state host_utc legacy_no_value)
     = Some (today host_utc)
  /\ Legacy.trigger_text host_utc legacy_no_value
       (Legacy.initial_state host_utc legacy_no_value) = "June 2024"%string
  /\ Legacy.trigger_text host_utc legacy_no_value
       (Legacy.initial_state host_utc legacy_no_value)
     <> Legacy.placeholder legacy_no_value.
Proof.
  split; [reflexivity | ]. split; [reflexivity | ].
  split; [vm_compute; reflexivity | ].
  vm_compute. discriminate.
Qed.

(** * Further properties of the component *)

(** ** The day grid *)

Lemma month_end_bounds y m :
  -271820 <= y <= 275758 -> 0 <= m <= 11 ->
  -99999744 <= first_day_of_month y m + month_length y m < 99999744.
Proof.
  intros Hy Hm.
  pose proof (DayFromYear_mono (-271820) y ltac:(lia)) as L.
  pose proof (DayFromYear_mono (y + 1) 275759 ltac:(lia)) as U.
  change (DayFromYear (-271820)) with (-99999744) in L.
  change (DayFromYear 275759) with 99999379 in U.
  rewrite DayFromYear_succ in U.
  unfold first_day_of_month, month_length in *. rewrite DaysInYear_leap in *.
  month_split Hm; destruct (gregorian_leap y); cbn in *; lia.
Qed.

Lemma MakeDay_next_month_first y m :
  0 <= m <= 11 -> MakeDay y (m + 1) 1 = first_day_of_month y m + month_length y m.
Proof.
  intros Hm. pose proof (MakeDay_day_zero y m Hm) as E. unfold MakeDay in *. lia.
Qed.

Lemma getDay_local_midnight h n :
  zone_within_a_day h ->
  getDay h (mkDate (Num (n * msPerDay - zone_offset h))) = Num ((n + 4) mod 7).
Proof.
  intros Hz. unfold getDay, WeekDay. cbn [getTime].
  now destruct (Day_local_midnight h n Hz) as [-> _].
Qed.

Lemma first_day_bounds y m :
  -271820 <= y <= 275759 -> 0 <= m <= 11 ->
  -99999744 <= first_day_of_month y m < 99999744.
Proof.
  intros Hy Hm. pose proof (month_length_bounds y m).
  pose proof (day_number_bounds y m 1 Hy Hm ltac:(lia)). lia.
Qed.

(** X1.  On a host whose local time is UTC plus one constant offset, of a day
    at most, for a year from -271820 to 275758 and a month index from 0 to
    11, [getFirstDayOfMonth] is a weekday from 0 to 6, and the first weekday
    of the month after is that weekday plus [getDaysInMonth], modulo 7: the
    pages of the day grid follow one another.  (Where the zone skips a local
    day the chain breaks, see [kiritimati_december_1994].) *)
Theorem first_weekday_chain h y m :
  zone_within_a_day h -> -271820 <= y <= 275758 -> 0 <= m <= 11 ->
  exists w n,
    getFirstDayOfMonth h (Num y) (Num m) = Num w /\ 0 <= w <= 6 /\
    getDaysInMonth h (Num y) (Num m) = Num n /\
    getFirstDayOfMonth h (Num y) (Num (m + 1)) = Num ((w + n) mod 7).
Proof.
  intros Hz Hy Hm.
  assert (Hc : -271820 <= constructor_year y <= 275758).
  { unfold constructor_year. destruct (Z.leb_spec 0 y), (Z.leb_spec y 99); cbn [andb]; lia. }
  set (cy := constructor_year y) in *.
  exists ((first_day_of_month cy m + 4) mod 7), (month_length cy m).
  split; [ | split; [zdiv | split ] ].
  - unfold getFirstDayOfMonth, new_Date. cbv zeta. fold cy.
    rewrite MakeDay_in_month by exact Hm.
    replace (first_day_of_month cy m + 1 - 1) with (first_day_of_month cy m) by lia.
    rewrite TimeClip_local_midnight;
      [now apply getDay_local_midnight | exact Hz | apply first_day_bounds; lia].
  - apply getDaysInMonth_value; [exact Hz | lia | exact Hm].
  - unfold getFirstDayOfMonth, new_Date. cbv zeta. fold cy.
    rewrite MakeDay_next_month_first by exact Hm.
    rewrite TimeClip_local_midnight;
      [ | exact Hz | apply month_end_bounds; assumption ].
    rewrite getDay_local_midnight by exact Hz. f_equal. zdiv.
Qed.

Lemma day_cells_range h y m :
  zone_within_a_day h -> -271820 <= y <= 275759 -> 0 <= m <= 11 ->
  forall s, currentYear s = Num y -> currentMonth s = Num m ->
  day_cells h s = Z_range 1 (month_length (constructor_year y) m).
Proof.
  intros Hz Hy Hm s Ey Em. unfold day_cells, Z_range. rewrite Ey, Em.
  rewrite getDaysInMonth_value by assumption. cbn [array_length].
  apply map_ext. intros i. lia.
Qed.

Lemma in_Z_range lo len z : In z (Z_range lo len) <-> lo <= z < lo + len.
Proof.
  unfold Z_range. rewrite in_map_iff. split.
  - intros (i & <- & Hi). apply in_seq in Hi. lia.
  - intros H. exists (Z.to_nat (z - lo)). split; [lia | apply in_seq; lia].
Qed.

(** X2.  On a host whose local time is UTC plus one constant offset, of a day
    at most, with the cursor on a year from -271820 to 275759 and a month
    index from 0 to 11, the day grid holds the days 1, 2, ... up to the
    length that month has in the year the Date constructor works with
    (1900 + year for a year from 0 to 99), which is the length of the cursor
    month for every year but 0 (February of year 0 gets 28 buttons, not 29);
    these are 28 to 31 buttons after at most 6 empty cells, and the date
    built for every button falls in that month of the constructor's year, on
    the day the button shows.  (Where the zone skips a local day the grid is
    cut short or a button spills, see [kiritimati_december_1994] and
    [apia_december_2011].) *)
Theorem day_cells_are_the_month h s y m :
  zone_within_a_day h -> currentYear s = Num y -> currentMonth s = Num m ->
  -271820 <= y <= 275759 -> 0 <= m <= 11 ->
  day_cells h s = Z_range 1 (month_length (constructor_year y) m)
  /\ (y <> 0 -> day_cells h s = Z_range 1 (month_length y m))
  /\ (28 <= Z.of_nat (List.length (day_cells h s)) <= 31)
  /\ (leading_blanks h s <= 6)%nat
  /\ forall d, In d (day_cells h s) ->
       getFullYear h (new_Date h (Num y) (Num m) (Num d)) = Num (constructor_year y)
       /\ getMonth h (new_Date h (Num y) (Num m) (Num d)) = Num m
       /\ getDate h (new_Date h (Num y) (Num m) (Num d)) = Num d.
Proof.
  intros Hz Ey Em Hy Hm.
  pose proof (day_cells_range h y m Hz Hy Hm s Ey Em) as E.
  pose proof (month_length_bounds (constructor_year y) m) as B.
  split; [exact E | split; [ | split; [ | split ] ] ].
  - intros Hy0. now rewrite E, month_length_constructor_year.
  - rewrite E. unfold Z_range. rewrite length_map, length_seq. lia.
  - unfold leading_blanks, getFirstDayOfMonth, new_Date. rewrite Ey, Em. cbv zeta.
    rewrite MakeDay_in_month by exact Hm.
    rewrite TimeClip_local_midnight;
      [ | exact Hz | apply day_number_bounds;
                     [apply constructor_year_range; exact Hy | exact Hm | lia] ].
    rewrite getDay_local_midnight by exact Hz. cbn [array_length]. zdiv.
  - intros d Hd. rewrite E in Hd. apply in_Z_range in Hd.
    rewrite new_Date_time by (try assumption; lia).
    destruct (local_midnight_fields h (constructor_year y) m d Hz Hm ltac:(lia))
      as (Fy & Fm & Fd & _).
    now repeat split.
Qed.

Lemma first_weekday_chain_witness :
  zone_within_a_day host_utc /\ -271820 <= 2024 <= 275758 /\ 0 <= 1 <= 11 /\
  exists w n,
    getFirstDayOfMonth host_utc (Num 2024) (Num 1) = Num w /\ 0 <= w <= 6 /\
    getDaysInMonth host_utc (Num 2024) (Num 1) = Num n /\
    getFirstDayOfMonth host_utc (Num 2024) (Num (1 + 1)) = Num ((w + n) mod 7).
Proof.
  assert (Hz : zone_within_a_day host_utc)
    by (exists 0; split; [unfold msPerDay; lia | reflexivity]).
  assert (Hy : -271820 <= 2024 <= 275758) by lia.
  assert (Hm : 0 <= 1 <= 11) by lia.
  repeat (split; [assumption | ]).
  exact (first_weekday_chain host_utc 2024 1 Hz Hy Hm).
Defined.

Lemma day_cells_are_the_month_witness :
  zone_within_a_day host_utc /\
  currentYear (cursor_at 2024 1 days) = Num 2024 /\
  currentMonth (cursor_at 2024 1 days) = Num 1 /\
  -271820 <= 2024 <= 275759 /\ 0 <= 1 <= 11 /\
  day_cells host_utc (cursor_at 2024 1 days)
  = Z_range 1 (month_length (constructor_year 2024) 1).
Proof.
  assert (Hz : zone_within_a_day host_utc)
    by (exists 0; split; [unfold msPerDay; lia | reflexivity]).
  assert (Hy : -271820 <= 2024 <= 275759) by lia.
  assert (Hm : 0 <= 1 <= 11) by lia.
  split; [exact Hz | ]. do 2 (split; [reflexivity | ]).
  split; [exact Hy | split; [exact Hm | ] ].
  exact (proj1 (day_cells_are_the_month host_utc (cursor_at 2024 1 days) 2024 1
                  Hz eq_refl eq_refl Hy Hm)).
Defined.

(** ** Hosts whose offset changes *)

(** The properties of the day grid above need the constant offset.  On
    Kiritimati, where 31 December 1994 was skipped, day 0 of January 1995 is
    30 December: December 1994 gets one button, and the first weekday of
    January (0) is not that of December (4) plus the buttons. *)
Example kiritimati_december_1994 :
  ~ zone_within_a_day host_kiritimati /\
  getFirstDayOfMonth host_kiritimati (Num 1994) (Num 11) = Num 4 /\
  getDaysInMonth host_kiritimati (Num 1994) (Num 11) = Num 1 /\
  getFirstDayOfMonth host_kiritimati (Num 1994) (Num 12) = Num 0 /\
  day_cells host_kiritimati (cursor_at 1994 11 days) = [1].
Proof.
  split; [ | repeat split; vm_compute; reflexivity].
  intros (offset & _ & H).
  pose proof (H 0 true) as H0. pose proof (H 788868000000 true) as H1.
  vm_compute in H0, H1. congruence.
Qed.

(** On Apia, where 30 December 2011 was skipped, December 2011 has its 31
    buttons, but the date built for button 30 is 31 December: a click on it
    stores and reports 31 December, and the button marked afterwards is 31. *)
Example apia_december_2011 :
  ~ zone_within_a_day host_apia /\
  getDaysInMonth host_apia (Num 2011) (Num 11) = Num 31 /\
  nth_error (day_cells host_apia (cursor_at 2011 11 days)) 29 = Some 30 /\
  getDate host_apia (new_Date host_apia (Num 2011) (Num 11) (Num 30)) = Num 31 /\
  new_Date host_apia (Num 2011) (Num 11) (Num 30)
  = new_Date host_apia (Num 2011) (Num 11) (Num 31) /\
  step host_apia (no_bounds true) (cursor_at 2011 11 days) (ClickDayCell 29)
  = (mkState (Some (new_Date host_apia (Num 2011) (Num 11) (Num 31)))
       (Num 2011) (Num 11) false days,
     [new_Date host_apia (Num 2011) (Num 11) (Num 31)]) /\
  isSelectedDay host_apia
    (fst (step host_apia (no_bounds true) (cursor_at 2011 11 days) (ClickDayCell 29)))
    (Num 30) = false /\
  isSelectedDay host_apia
    (fst (step host_apia (no_bounds true) (cursor_at 2011 11 days) (ClickDayCell 29)))
    (Num 31) = true.
Proof.
  split; [ | repeat split; vm_compute; reflexivity].
  intros (offset & _ & H).
  pose proof (H 0 true) as H0. pose proof (H 1325239200000 true) as H1.
  vm_compute in H0, H1. congruence.
Qed.

(** ** Picking a day, and what the grids mark *)

Lemma strict_eq_Num a b : strict_eq (Num a) (Num b) = (a =? b).
Proof. reflexivity. Qed.

Lemma literal_year_range y : literal_year y -> -271820 <= y <= 275759.
Proof. unfold literal_year. lia. Qed.

(** X3.  On a host whose local time is UTC plus one constant offset, of a day
    at most: with the popup open on the days view, the cursor on a month
    index of a year from -271820 to 275759 outside 0..99, a click on a day
    button that is there and enabled stores local midnight of that day of the
    cursor month, which is in range, closes the popup, sets the view mode to
    the initial one, leaves the cursor, and calls [onChange] (when supplied)
    once with that date; afterwards the button of that day, and no other, is
    marked as selected.  (Where the zone skips a local day another day can be
    stored, see [apia_december_2011].) *)
Theorem day_pick_selects h p s y m i d :
  zone_within_a_day h -> currentYear s = Num y -> currentMonth s = Num m ->
  literal_year y -> 0 <= m <= 11 ->
  isOpen s = true -> viewMode s = days ->
  nth_error (day_cells h s) i = Some d ->
  day_cell_disabled h p s d = false ->
  let picked := new_Date h (Num y) (Num m) (Num d) in
  step h p s (ClickDayCell i)
  = (mkState (Some picked) (Num y) (Num m) false (initialViewMode p),
     call_onChange p picked)
  /\ is_local_date h picked y m d
  /\ isDateInRange (min_bound h p) (max_bound h p) picked = true
  /\ forall d', isSelectedDay h (fst (step h p s (ClickDayCell i))) (Num d') = (d' =? d).
Proof.
  intros Hz Ey Em Hlit Hm Hopen Hview Hnth Hen picked.
  assert (Hin : isDateInRange (min_bound h p) (max_bound h p) picked = true).
  { unfold day_cell_disabled in Hen. rewrite Ey, Em in Hen. fold picked in Hen.
    now destruct (isDateInRange (min_bound h p) (max_bound h p) picked). }
  assert (Hd : 1 <= d <= month_length y m).
  { apply nth_error_In in Hnth.
    rewrite (day_cells_range h y m Hz (literal_year_range y Hlit) Hm s Ey Em) in Hnth.
    rewrite (constructor_year_literal y Hlit) in Hnth.
    apply in_Z_range in Hnth. lia. }
  pose proof (new_Date_fields h y m d Hz Hlit Hm Hd) as L. fold picked in L.
  assert (E : step h p s (ClickDayCell i)
              = (mkState (Some picked) (Num y) (Num m) false (initialViewMode p),
                 call_onChange p picked)).
  { unfold step. rewrite Hopen, Hview, Hnth, Hen. cbn [andb ViewMode_eqb].
    unfold handleDaySelect. rewrite Ey, Em. fold picked. rewrite Hin.
    unfold setViewMode, setIsOpen, setSelectedDate. cbn. now rewrite ?Ey, ?Em. }
  split; [exact E | split; [exact L | split; [exact Hin | ] ] ].
  intros d'. rewrite E. cbn [fst]. unfold isSelectedDay.
  cbn [selectedDate currentMonth currentYear].
  destruct L as (-> & -> & -> & _). rewrite !strict_eq_Num, !Z.eqb_refl.
  rewrite !andb_true_r. apply Z.eqb_sym.
Qed.






Lemma day_pick_selects_witness :
  zone_within_a_day host_utc /\
  currentYear (cursor_at 2024 0 days) = Num 2024 /\
  currentMonth (cursor_at 2024 0 days) = Num 0 /\
  literal_year 2024 /\ 0 <= 0 <= 11 /\
  isOpen (cursor_at 2024 0 days) = true /\ viewMode (cursor_at 2024 0 days) = days /\
  nth_error (day_cells host_utc (cursor_at 2024 0 days)) 9 = Some 10 /\
  day_cell_disabled host_utc (from_jan_10 true) (cursor_at 2024 0 days) 10 = false /\
  step host_utc (from_jan_10 true) (cursor_at 2024 0 days) (ClickDayCell 9)
  = (mkState (Some (new_Date host_utc (Num 2024) (Num 0) (Num 10)))
       (Num 2024) (Num 0) false (initialViewMode (from_jan_10 true)),
     call_onChange (from_jan_10 true) (new_Date host_utc (Num 2024) (Num 0) (Num 10))).
Proof.
  assert (Hz : zone_within_a_day host_utc)
    by (exists 0; split; [unfold msPerDay; lia | reflexivity]).
  assert (Hlit : literal_year 2024) by (unfold literal_year; lia).
  assert (Hm : 0 <= 0 <= 11) by lia.
  assert (Hnth : nth_error (day_cells host_utc (cursor_at 2024 0 days)) 9 = Some 10)
    by (vm_compute; reflexivity).
  assert (Hen : day_cell_disabled host_utc (from_jan_10 true) (cursor_at 2024 0 days) 10
                = false) by (vm_compute; reflexivity).
  split; [exact Hz | ]. do 2 (split; [reflexivity | ]).
  split; [exact Hlit | split; [exact Hm | ] ]. do 2 (split; [reflexivity | ]).
  split; [exact Hnth | split; [exact Hen | ] ].
  exact (proj1 (day_pick_selects host_utc (from_jan_10 true) (cursor_at 2024 0 days)
                  2024 0 9%nat 10 Hz eq_refl eq_refl Hlit Hm eq_refl eq_refl Hnth Hen)).
Defined.



(** ** Bounds, formatted values and navigation *)

Lemma normalize_rejects_nothing h b :
  rejects_nothing h b ->
  normalizeToDate h b = None \/ normalizeToDate h b = Some (mkDate NaN).
Proof.
  intros [-> | [-> | [(text & -> & E) | ->] ] ]; cbn; auto.
  left. destruct text; [reflexivity | now rewrite E].
Qed.

Lemma date_lt_NaN_r d : date_lt d (mkDate NaN) = false.
Proof. unfold date_lt, num_lt. cbn. now destruct (getTime d). Qed.

Lemma date_gt_NaN_r d : date_gt d (mkDate NaN) = false.
Proof. reflexivity. Qed.

(** X6.  A bound that is absent, an empty text, a text the parser rejects or
    an Invalid Date object rejects no date: [isDateInRange] is what it is
    without that bound.  A non-empty text the parser accepts is the bound
    with the time value parsed. *)
Theorem degenerate_bounds_reject_nothing h p :
  (rejects_nothing h (minDate p) ->
   forall max d, isDateInRange (min_bound h p) max d = isDateInRange None max d)
  /\ (rejects_nothing h (maxDate p) ->
      forall min d, isDateInRange min (max_bound h p) d = isDateInRange min None d)
  /\ (forall text t,
        text <> EmptyString -> Date_parse h text = Num t ->
        (minDate p = Some (InString text) -> min_bound h p = Some (mkDate (Num t)))
        /\ (maxDate p = Some (InString text) -> max_bound h p = Some (mkDate (Num t)))).
Proof.
  split; [ | split ].
  - intros H max d. unfold min_bound.
    destruct (normalize_rejects_nothing h _ H) as [-> | ->]; [reflexivity | ].
    unfold isDateInRange. now rewrite date_lt_NaN_r.
  - intros H min d. unfold max_bound.
    destruct (normalize_rejects_nothing h _ H) as [-> | ->]; [reflexivity | ].
    unfold isDateInRange. now rewrite date_gt_NaN_r.
  - intros text t Hne Hp. unfold min_bound, max_bound.
    split; intros ->; cbn; (destruct text; [contradiction | now rewrite Hp]).
Qed.

Lemma append_nonempty_l a b : a <> EmptyString -> (a ++ b)%string <> EmptyString.
Proof. destruct a; [contradiction | discriminate]. Qed.

Lemma append_nonempty_r a b : b <> EmptyString -> (a ++ b)%string <> EmptyString.
Proof. destruct a; [trivial | discriminate]. Qed.

Lemma formatVerbose_nonempty h w d : formatVerbose h w d <> EmptyString.
Proof.
  unfold formatVerbose. destruct w; apply append_nonempty_r; discriminate.
Qed.

Lemma substitute_tokens_nonempty y m d c f :
  y <> EmptyString -> m <> EmptyString -> d <> EmptyString ->
  substitute_tokens y m d (String c f) <> EmptyString.
Proof.
  intros Hy Hm Hd. unfold substitute_tokens, tokenize. cbn [tokenize_from].
  destruct (String.prefix "yyyy" (String c f));
    [ | destruct (String.prefix "mm" (String c f));
        [ | destruct (String.prefix "dd" (String c f)) ] ];
    cbn [map]; rewrite concat_cons; apply append_nonempty_l; cbn [render];
    try assumption; discriminate.
Qed.

(** X7.  The formatted value is the empty string exactly when there is no
    date: whatever the pattern and the date, even an Invalid Date, a date
    never prints as nothing. *)
Theorem formatDisplay_empty_iff h p date :
  formatDisplay h p date = EmptyString <-> date = None.
Proof.
  split; [ | now intros ->].
  destruct date as [d |]; [ | reflexivity]. cbn [formatDisplay]. intros H. exfalso.
  destruct (formatString p) as [[| c f] |];
    try (now apply formatVerbose_nonempty in H).
  rewrite formatDateByString_one_pass in H. revert H.
  apply substitute_tokens_nonempty;
    first [ apply Number_toString_nonempty
          | apply padStart_nonempty; apply Number_toString_nonempty ].
Qed.

Lemma monthName_valid m :
  0 <= m <= 11 ->
  monthName (Num m) = nth (Z.to_nat m) monthNames ""%string
  /\ In (monthName (Num m)) monthNames.
Proof.
  intros Hm. month_split Hm; cbn; split; try reflexivity; tauto.
Qed.

(** X8.  Without a pattern, or with the empty pattern, a valid date prints
    as day, month name and year, or as month name and year in month-only
    mode, the day and the year as plain numbers and the month name one of the
    twelve of [monthNames]. *)
Theorem builtin_format_of_valid_date h p d y m dt :
  formatString p = None \/ formatString p = Some EmptyString ->
  getFullYear h d = Num y -> getMonth h d = Num m -> getDate h d = Num dt ->
  formatDisplay h p (Some d)
  = (if includeDays p
     then Number_toString (Num dt) ++ " " ++ nth (Z.to_nat m) monthNames "" ++ " "
          ++ Number_toString (Num y)
     else nth (Z.to_nat m) monthNames "" ++ " " ++ Number_toString (Num y))%string
  /\ In (nth (Z.to_nat m) monthNames ""%string) monthNames.
Proof.
  intros Hf Hy Hm Hd.
  destruct (getters_of_valid h d y m dt Hy Hm Hd) as [Bm _].
  destruct (monthName_valid m Bm) as [En Hin].
  split; [ | now rewrite <- En].
  cbn [formatDisplay]. unfold formatVerbose. rewrite Hy, Hm, Hd, En.
  now destruct Hf as [-> | ->].
Qed.

Lemma navigateMonth_next_eq sel y m o v :
  navigateMonth (mkState sel (Num y) (Num m) o v) next
  = mkState sel (Num (if m =? 11 then y + 1 else y))
      (Num (if m =? 11 then 0 else m + 1)) o v.
Proof.
  unfold navigateMonth, setCurrentYear, setCurrentMonth. cbn.
  now destruct (m =? 11).
Qed.

Lemma navigateMonth_prev_eq sel y m o v :
  navigateMonth (mkState sel (Num y) (Num m) o v) prev
  = mkState sel (Num (if m =? 0 then y - 1 else y))
      (Num (if m =? 0 then 11 else m - 1)) o v.
Proof.
  unfold navigateMonth, setCurrentYear, setCurrentMonth. cbn.
  now destruct (m =? 0).
Qed.

Ltac walk_months :=
  unfold Nat.iter; cbn [nat_rect];
  repeat (first [rewrite navigateMonth_next_eq | rewrite navigateMonth_prev_eq];
          match goal with
          | |- context [?a =? ?b] => destruct (Z.eqb_spec a b); try lia
          end);
  do 2 f_equal; lia.

(** X9.  On a cursor with a month index from 0 to 11, [next] then [prev]
    and [prev] then [next] give the state back, for month and for year
    navigation; twelve month steps forward, or back, move the cursor by one
    year exactly and leave the month. *)
Theorem navigation_round_trips sel y m o v :
  0 <= m <= 11 ->
  let s := mkState sel (Num y) (Num m) o v in
  navigateMonth (navigateMonth s next) prev = s
  /\ navigateMonth (navigateMonth s prev) next = s
  /\ navigateYear (navigateYear s next) prev = s
  /\ navigateYear (navigateYear s prev) next = s
  /\ Nat.iter 12 (fun s' => navigateMonth s' next) s
     = mkState sel (Num (y + 1)) (Num m) o v
  /\ Nat.iter 12 (fun s' => navigateMonth s' prev) s
     = mkState sel (Num (y - 1)) (Num m) o v.
Proof.
  intros Hm s. subst s.
  split; [ | split; [ | split; [ | split; [ | split ] ] ] ].
  - unfold navigateMonth, setCurrentYear, setCurrentMonth. cbn.
    destruct (Z.eqb_spec m 11) as [-> | N]; cbn.
    + do 2 f_equal. lia.
    + destruct (Z.eqb_spec (m + 1) 0); [lia | ]. cbn. do 2 f_equal. lia.
  - unfold navigateMonth, setCurrentYear, setCurrentMonth. cbn.
    destruct (Z.eqb_spec m 0) as [-> | N]; cbn.
    + do 2 f_equal. lia.
    + destruct (Z.eqb_spec (m - 1) 11); [lia | ]. cbn. do 2 f_equal. lia.
  - unfold navigateYear, setCurrentYear. cbn. destruct v; cbn; do 2 f_equal; lia.
  - unfold navigateYear, setCurrentYear. cbn. destruct v; cbn; do 2 f_equal; lia.
  - month_split Hm; walk_months.
  - month_split Hm; walk_months.
Qed.

Lemma degenerate_bounds_reject_nothing_witness :
  rejects_nothing host_utc (minDate unparsable_min) /\
  isDateInRange (min_bound host_utc unparsable_min) None jan_15_2023
  = isDateInRange None None jan_15_2023.
Proof.
  assert (H : rejects_nothing host_utc (minDate unparsable_min)).
  { right. right. left. eexists. split; reflexivity. }
  split; [exact H | ].
  exact (proj1 (degenerate_bounds_reject_nothing host_utc unparsable_min) H
           None jan_15_2023).
Defined.

Lemma builtin_format_of_valid_date_witness :
  (formatString with_jan_15_2023 = None
   \/ formatString with_jan_15_2023 = Some EmptyString) /\
  getFullYear host_utc jan_15_2023 = Num 2023 /\
  getMonth host_utc jan_15_2023 = Num 0 /\
  getDate host_utc jan_15_2023 = Num 15 /\
  formatDisplay host_utc with_jan_15_2023 (Some jan_15_2023) = "15 January 2023"%string.
Proof.
  assert (Hf : formatString with_jan_15_2023 = None
               \/ formatString with_jan_15_2023 = Some EmptyString)
    by (left; reflexivity).
  assert (Hy : getFullYear host_utc jan_15_2023 = Num 2023) by (vm_compute; reflexivity).
  assert (Hm : getMonth host_utc jan_15_2023 = Num 0) by (vm_compute; reflexivity).
  assert (Hd : getDate host_utc jan_15_2023 = Num 15) by (vm_compute; reflexivity).
  repeat (split; [assumption | ]).
  exact (proj1 (builtin_format_of_valid_date host_utc with_jan_15_2023 jan_15_2023
                  2023 0 15 Hf Hy Hm Hd)).
Defined.

Lemma navigation_round_trips_witness :
  0 <= 11 <= 11 /\
  navigateMonth (navigateMonth (cursor_at 2024 11 days) next) prev = cursor_at 2024 11 days /\
  Nat.iter 12 (fun s' => navigateMonth s' next) (cursor_at 2024 11 days)
  = cursor_at 2025 11 days.
Proof.
  assert (H : 0 <= 11 <= 11) by lia.
  split; [exact H | ].
  split.
  - exact (proj1 (navigation_round_trips None 2024 11 true days H)).
  - exact (proj1 (proj2 (proj2 (proj2 (proj2
             (navigation_round_trips None 2024 11 true days H)))))).
Defined.

(** ** What every sequence of events keeps *)

Lemma run_cons h p s e rest :
  run h p s (e :: rest)
  = (fst (run h p (fst (step h p s e)) rest),
     snd (step h p s e) ++ snd (run h p (fst (step h p s e)) rest)).
Proof.
  cbn [run]. destruct (step h p s e) as [s1 c1]. cbn [fst snd].
  now destruct (run h p s1 rest).
Qed.

Lemma run_invariant h p (I : State -> Prop) (Q : Date -> Prop) :
  (forall s e, I s -> I (fst (step h p s e)) /\ Forall Q (snd (step h p s e))) ->
  forall events s, I s ->
    I (fst (run h p s events)) /\ Forall Q (snd (run h p s events)).
Proof.
  intros Hstep events. induction events as [| e rest IH]; intros s Hs.
  - split; [exact Hs | constructor].
  - rewrite run_cons. cbn [fst snd]. destruct (Hstep s e Hs) as [H1 Q1].
    destruct (IH _ H1) as [H2 Q2]. split; [exact H2 | ].
    apply Forall_app. now split.
Qed.

Ltac open_step :=
  unfold step, toggle, open, handleClickOutside, handleMonthSelect, handleDaySelect,
    handleYearSelect, navigateMonth, navigateYear, call_onChange,
    setViewMode, setIsOpen, setSelectedDate, setCurrentMonth, setCurrentYear,
    initialViewMode.

Ltac split_ifs :=
  repeat match goal with
         | |- context [if ?b then _ else _] => destruct b eqn:?
         | |- context [match ?x with _ => _ end] => destruct x eqn:?
         end.

Lemma mount_shape h p :
  viewMode (mount h p) = initialViewMode p /\ isOpen (mount h p) = false
  /\ selectedDate (mount h p) = value p.
Proof.
  unfold mount. destruct (value_effect_syncs h p (initial_state h p))
    as (S & _ & _ & O & V).
  rewrite S, O, V. now repeat split.
Qed.

Lemma step_keeps_days_rule h p s e :
  (viewMode s = days -> includeDays p = true) ->
  viewMode (fst (step h p s e)) = days -> includeDays p = true.
Proof.
  intros I. destruct e; open_step; split_ifs; cbn; try exact I; try discriminate;
    try (intros _; assumption); auto; intros; congruence.
Qed.

(** X10.  From mounting on, whatever the user does, the days view is shown
    only in a widget configured with [includeDays]. *)
Theorem days_view_needs_day_mode h p events :
  viewMode (fst (run h p (mount h p) events)) = days -> includeDays p = true.
Proof.
  apply (run_invariant h p (fun s => viewMode s = days -> includeDays p = true)
           (fun _ => True)).
  - intros s e I. split; [now apply step_keeps_days_rule | ].
    apply Forall_forall. trivial.
  - destruct (mount_shape h p) as (-> & _). unfold initialViewMode.
    now destruct (includeDays p).
Qed.

Lemma step_when_disabled h p s e :
  disabled p = true -> isOpen s = false ->
  snd (step h p s e) = []
  /\ (fst (step h p s e) = s \/ fst (step h p s e) = setViewMode months s).
Proof.
  intros D O. destruct s as [sel cy cm op vm]. cbn in O. subst op.
  destruct e; unfold step, toggle, open; rewrite ?D; cbn [isOpen andb fst snd];
    try match goal with
        | |- context [hideInput p] => destruct (hideInput p)
        end;
    cbn [fst snd]; split; try reflexivity; try (left; reflexivity).
  right. reflexivity.
Qed.

(** X11.  A disabled widget never opens, selects or reports anything:
    after any events its state is the mounted one, but for the view mode,
    which a press outside the widget resets to [months]. *)
Theorem disabled_widget_ignores_events h p events :
  disabled p = true ->
  snd (run h p (mount h p) events) = []
  /\ (fst (run h p (mount h p) events) = mount h p
      \/ fst (run h p (mount h p) events) = setViewMode months (mount h p)).
Proof.
  intros D.
  assert (G : forall es s,
             s = mount h p \/ s = setViewMode months (mount h p) ->
             snd (run h p s es) = []
             /\ (fst (run h p s es) = mount h p
                 \/ fst (run h p s es) = setViewMode months (mount h p))).
  { induction es as [| e rest IH]; intros s Hs.
    - split; [reflexivity | exact Hs].
    - rewrite run_cons. cbn [fst snd].
      assert (O : isOpen s = false).
      { destruct (mount_shape h p) as (_ & O & _). now destruct Hs as [-> | ->]. }
      destruct (step_when_disabled h p s e D O) as [C [E | E] ]; rewrite C, E.
      + now apply IH.
      + apply IH. right. now destruct Hs as [-> | ->]. }
  apply G. now left.
Qed.

Lemma step_keeps_selection_in_range h p s e :
  selection_in_range h p s ->
  selection_in_range h p (fst (step h p s e))
  /\ Forall (fun d => isDateInRange (min_bound h p) (max_bound h p) d = true)
       (snd (step h p s e)).
Proof.
  intros I. unfold selection_in_range in *.
  destruct e; open_step; split_ifs; cbn [fst snd selectedDate];
    (split; [ | repeat constructor ]); try exact I;
    try (right; eexists; split; [reflexivity | ]);
    try match goal with
        | H : negb ?b = false |- _ => now destruct b
        end.
Qed.

(** X12.  From mounting on, whatever the user does, the stored selection is
    the value supplied or a date in range, and every date passed to
    [onChange] is in range. *)
Theorem selection_and_calls_in_range h p events :
  selection_in_range h p (fst (run h p (mount h p) events))
  /\ Forall (fun d => isDateInRange (min_bound h p) (max_bound h p) d = true)
       (snd (run h p (mount h p) events)).
Proof.
  apply run_invariant.
  - intros s e. apply step_keeps_selection_in_range.
  - left. apply mount_shape.
Qed.

Lemma getMonth_valid h d t :
  getTime d = Num t -> exists y m, getFullYear h d = Num y /\ getMonth h d = Num m /\ 0 <= m <= 11.
Proof.
  intros E. unfold getFullYear, getMonth. rewrite E.
  destruct (day_of_fields (LocalTime h t)) as (Bm & _).
  eauto.
Qed.

Lemma mount_cursor_ok h p : value_ok p -> cursor_ok (mount h p).
Proof.
  unfold value_ok, cursor_ok, mount.
  destruct (value_effect_syncs h p (initial_state h p)) as (_ & C & K & _).
  destruct (value p) as [v |] eqn:E.
  - intros (t & Et). destruct (C v eq_refl) as [-> ->].
    now apply getMonth_valid with (t := t).
  - intros _. destruct (K eq_refl) as [-> ->].
    unfold initial_state. rewrite E. cbn [currentYear currentMonth].
    now apply getMonth_valid with (t := now h).
Qed.

Lemma yearRange_Num s y year i :
  currentYear s = Num y -> nth_error (yearRange s) i = Some year ->
  exists y', year = Num y'.
Proof.
  intros E H. apply nth_error_In in H. unfold yearRange in H.
  apply in_map_iff in H as (k & <- & _). rewrite E. cbn. eauto.
Qed.

Lemma step_keeps_cursor_ok h p s e : cursor_ok s -> cursor_ok (fst (step h p s e)).
Proof.
  intros (y & m & Ey & Em & Hm). unfold cursor_ok.
  destruct e; try (open_step; split_ifs; cbn; eauto 6; fail).
  - (* ClickPrev *)
    unfold step. destruct (isOpen s); [ | cbn; eauto 6].
    destruct (viewMode s) eqn:V; unfold navigateMonth, navigateYear, setCurrentYear,
      setCurrentMonth; rewrite ?Ey, ?Em, ?V; cbn.
    + destruct (Z.eqb_spec m 0); cbn; do 2 eexists; repeat split; try reflexivity; lia.
    + eauto 6.
    + eauto 6.
  - (* ClickNext *)
    unfold step. destruct (isOpen s); [ | cbn; eauto 6].
    destruct (viewMode s) eqn:V; unfold navigateMonth, navigateYear, setCurrentYear,
      setCurrentMonth; rewrite ?Ey, ?Em, ?V; cbn.
    + destruct (Z.eqb_spec m 11); cbn; do 2 eexists; repeat split; try reflexivity; lia.
    + eauto 6.
    + eauto 6.
  - (* ClickMonthCell *)
    unfold step.
    destruct (isOpen s && ViewMode_eqb (viewMode s) months
              && (index <? List.length monthNames)%nat
              && negb (month_cell_disabled h p s (Z.of_nat index))) eqn:G;
      [ | cbn; eauto 6].
    apply andb_prop in G as [G _]. apply andb_prop in G as [_ G].
    apply Nat.ltb_lt in G. cbn in G.
    open_step. split_ifs; cbn; eauto 6.
    exists y, (Z.of_nat index). repeat split; try assumption; lia.
  - (* ClickYearCell *)
    unfold step. destruct (isOpen s && ViewMode_eqb (viewMode s) years); [ | cbn; eauto 6].
    destruct (nth_error (yearRange s) index) as [year |] eqn:N; [ | cbn; eauto 6].
    destruct (yearRange_Num s y year index Ey N) as (y' & ->).
    destruct (year_cell_disabled h p (Num y')); cbn; eauto 6.
Qed.

(** X13.  When the value supplied is absent or a valid date, the cursor is,
    from mounting on and whatever the user does, on a numbered year and a
    month index from 0 to 11. *)
Theorem cursor_stays_well_formed h p events :
  value_ok p -> cursor_ok (fst (run h p (mount h p) events)).
Proof.
  intros V.
  apply (run_invariant h p cursor_ok (fun _ => True)).
  - intros s e I. split; [now apply step_keeps_cursor_ok | ].
    apply Forall_forall. trivial.
  - now apply mount_cursor_ok.
Qed.

Lemma step_selection_and_call h p s e :
  onChange p = true ->
  (selectedDate (fst (step h p s e)) = selectedDate s /\ snd (step h p s e) = [])
  \/ (exists d, selectedDate (fst (step h p s e)) = Some d
                /\ snd (step h p s e) = [d]
                /\ isOpen (fst (step h p s e)) = false).
Proof.
  intros C. destruct e; open_step; rewrite ?C; split_ifs; cbn [fst snd selectedDate isOpen];
    try (left; split; reflexivity); right; eexists; repeat split.
Qed.

Lemma last_call_app a b o : last_call (a ++ b) o = last_call b (last_call a o).
Proof.
  unfold last_call. rewrite rev_app_distr. destruct (rev b); reflexivity.
Qed.

(** X14.  With a change callback, the user changes the stored selection
    only through a call: after any events from any state the selection is the
    date of the last [onChange] call, and the selection of that state when
    there was no call. *)
Theorem selection_is_the_last_call h p events s :
  onChange p = true ->
  selectedDate (fst (run h p s events))
  = last_call (snd (run h p s events)) (selectedDate s).
Proof.
  intros C. revert s. induction events as [| e rest IH]; intros s; [reflexivity | ].
  rewrite run_cons. cbn [fst snd]. rewrite last_call_app, IH. f_equal.
  destruct (step_selection_and_call h p s e C) as [ [-> ->] | (d & -> & -> & _) ];
    reflexivity.
Qed.

Lemma days_view_needs_day_mode_witness :
  viewMode (fst (run host_utc (no_bounds true) (mount host_utc (no_bounds true))
                   [ClickTrigger])) = days /\
  includeDays (no_bounds true) = true.
Proof.
  assert (H : viewMode (fst (run host_utc (no_bounds true)
                               (mount host_utc (no_bounds true)) [ClickTrigger])) = days)
    by (vm_compute; reflexivity).
  split; [exact H | ].
  exact (days_view_needs_day_mode host_utc (no_bounds true) [ClickTrigger] H).
Defined.

Lemma disabled_widget_ignores_events_witness :
  disabled disabled_widget = true /\
  snd (run host_utc disabled_widget (mount host_utc disabled_widget) open_and_pick_15) = [].
Proof.
  split; [reflexivity | ].
  exact (proj1 (disabled_widget_ignores_events host_utc disabled_widget
                  open_and_pick_15 eq_refl)).
Defined.

Lemma cursor_stays_well_formed_witness :
  value_ok (no_bounds true) /\
  cursor_ok (fst (run host_utc (no_bounds true) (mount host_utc (no_bounds true))
                    open_and_pick_15)).
Proof.
  assert (H : value_ok (no_bounds true)) by exact I.
  split; [exact H | ].
  exact (cursor_stays_well_formed host_utc (no_bounds true) open_and_pick_15 H).
Defined.

Lemma selection_is_the_last_call_witness :
  onChange (no_bounds true) = true /\
  snd (run host_utc (no_bounds true) (mount host_utc (no_bounds true)) open_and_pick_15)
  = [new_Date host_utc (Num 2024) (Num 5) (Num 15)] /\
  selectedDate (fst (run host_utc (no_bounds true) (mount host_utc (no_bounds true))
                       open_and_pick_15))
  = last_call (snd (run host_utc (no_bounds true) (mount host_utc (no_bounds true))
                      open_and_pick_15))
      (selectedDate (mount host_utc (no_bounds true))).
Proof.
  split; [reflexivity | ]. split; [vm_compute; reflexivity | ].
  exact (selection_is_the_last_call host_utc (no_bounds true) open_and_pick_15
           (mount host_utc (no_bounds true)) eq_refl).
Defined.

(** ** The two variants *)

(** X15.  The second variant without bounds, pattern and render-prop
    trigger is the first one: the day and month handlers are the same
    functions, as are the formatted value and the text of the trigger; no
    cell is disabled; after mounting the selections agree, and the whole
    states when no value is supplied. *)
Theorem bounded_variant_without_bounds h p s :
  (forall day,
     handleDaySelect h (as_bounded p) s day = Legacy.handleDaySelect h p s day)
  /\ (forall monthIndex,
        handleMonthSelect h (as_bounded p) s monthIndex
        = Legacy.handleMonthSelect h p s monthIndex)
  /\ (forall date, formatDisplay h (as_bounded p) date = Legacy.formatDate h p date)
  /\ trigger_text h (as_bounded p) s = Legacy.trigger_text h p s
  /\ (forall index, month_cell_disabled h (as_bounded p) s index = false)
  /\ (forall year, year_cell_disabled h (as_bounded p) year = false)
  /\ (forall day, day_cell_disabled h (as_bounded p) s day = false)
  /\ selectedDate (mount h (as_bounded p)) = selectedDate (Legacy.mount h p)
  /\ (Legacy.value p = None -> mount h (as_bounded p) = Legacy.mount h p).
Proof.
  split; [reflexivity | ]. split; [reflexivity | ].
  split; [intros date; now destruct date | ].
  split; [unfold trigger_text, Legacy.trigger_text; now destruct (selectedDate s) | ].
  do 3 (split; [reflexivity | ]).
  split.
  - unfold mount, Legacy.mount, value_effect, Legacy.value_effect. cbn [value as_bounded].
    now destruct (Legacy.value p).
  - intros E. unfold mount, Legacy.mount, value_effect, Legacy.value_effect,
      initial_state, Legacy.initial_state. cbn [value as_bounded]. now rewrite E.
Qed.

(** X16.  In the first variant the cursor comes from the initialisers only:
    for a valid value it is the month and the year of the value, except that
    a January value leaves the month of today and a value of year 0 the year
    of today, and no later change of the value moves it. *)
Theorem legacy_cursor_is_seeded_once h p v t :
  Legacy.value p = Some v -> getTime v = Num t ->
  currentMonth (Legacy.mount h p)
  = (if MonthFromTime (LocalTime h t) =? 0 then getMonth h (today h) else getMonth h v)
  /\ currentYear (Legacy.mount h p)
     = (if YearFromTime (LocalTime h t) =? 0 then getFullYear h (today h)
        else getFullYear h v)
  /\ (forall s, currentMonth (Legacy.value_effect p s) = currentMonth s
                /\ currentYear (Legacy.value_effect p s) = currentYear s).
Proof.
  intros E Et. unfold Legacy.mount, Legacy.value_effect, Legacy.initial_state.
  rewrite E. cbn [setSelectedDate currentMonth currentYear].
  unfold or_else, truthy, getMonth, getFullYear. rewrite Et.
  repeat split.
  - now destruct (MonthFromTime (LocalTime h t) =? 0).
  - now destruct (YearFromTime (LocalTime h t) =? 0).
Qed.

Lemma bounded_variant_without_bounds_witness :
  Legacy.value legacy_no_value = None /\
  mount host_utc (as_bounded legacy_no_value) = Legacy.mount host_utc legacy_no_value.
Proof.
  split; [reflexivity | ].
  exact (proj2 (proj2 (proj2 (proj2 (proj2 (proj2 (proj2 (proj2
           (bounded_variant_without_bounds host_utc legacy_no_value
              (cursor_at 2024 0 days))))))))) eq_refl).
Defined.

Lemma legacy_cursor_is_seeded_once_witness :
  Legacy.value legacy_with_jan_15_2023 = Some jan_15_2023 /\
  getTime jan_15_2023 = Num 1673740800000 /\
  currentMonth (Legacy.mount host_utc legacy_with_jan_15_2023)
  = (if MonthFromTime (LocalTime host_utc 1673740800000) =? 0
     then getMonth host_utc (today host_utc) else getMonth host_utc jan_15_2023).
Proof.
  assert (Et : getTime jan_15_2023 = Num 1673740800000) by (vm_compute; reflexivity).
  split; [reflexivity | split; [exact Et | ] ].
  exact (proj1 (legacy_cursor_is_seeded_once host_utc legacy_with_jan_15_2023
                  jan_15_2023 1673740800000 eq_refl Et)).
Defined.

(** ** From the months view to a date, and the marks of today *)

Lemma yearRange_nth s y k :
  currentYear s = Num y -> (k < 20)%nat ->
  nth_error (yearRange s) k = Some (Num (y - 10 + Z.of_nat k)).
Proof.
  intros E Hk. unfold yearRange. rewrite E.
  rewrite nth_error_map, nth_error_seq.
  destruct (Nat.ltb_spec k 20); [reflexivity | lia].
Qed.

Lemma day_cells_nth h s y m j :
  zone_within_a_day h -> -271820 <= y <= 275759 -> 0 <= m <= 11 ->
  currentYear s = Num y -> currentMonth s = Num m ->
  Z.of_nat j < month_length (constructor_year y) m ->
  nth_error (day_cells h s) j = Some (Z.of_nat j + 1).
Proof.
  intros Hz Hy Hm Ey Em Hj. unfold day_cells. rewrite Ey, Em.
  rewrite getDaysInMonth_value by assumption. cbn [array_length].
  rewrite nth_error_map, nth_error_seq.
  destruct (Nat.ltb_spec j (Z.to_nat (month_length (constructor_year y) m)));
    [reflexivity | lia].
Qed.

(** X17.  On a host whose local time is UTC plus one constant offset, of a
    day at most, in day mode, from the open months view: a click on the year
    label, on the cell of a year of the window, on a month cell and on a day
    cell, the three cells enabled and the year from -271820 to 275759 outside
    0..99, select local midnight of exactly the day, month and year clicked,
    leave the cursor on that month, close the popup on the days view, and
    make one [onChange] call (when supplied), with that date.  (Where the
    zone skips a local day the last click can store another day, see
    [apia_december_2011].) *)
Theorem drill_down_selects h p sel y m0 k i j :
  zone_within_a_day h -> includeDays p = true ->
  (k < 20)%nat -> (i < 12)%nat ->
  let year := y - 10 + Z.of_nat k in
  let month := Z.of_nat i in
  let day := Z.of_nat j + 1 in
  let picked := new_Date h (Num year) (Num month) (Num day) in
  literal_year year -> day <= month_length year month ->
  year_cell_disabled h p (Num year) = false ->
  isDateInRange (min_bound h p) (max_bound h p)
    (new_Date h (Num year) (Num month) (Num 1)) = true ->
  isDateInRange (min_bound h p) (max_bound h p) picked = true ->
  run h p (mkState sel (Num y) m0 true months)
    [ClickHeaderLabel; ClickYearCell k; ClickMonthCell i; ClickDayCell j]
  = (mkState (Some picked) (Num year) (Num month) false days, call_onChange p picked)
  /\ is_local_date h picked year month day.
Proof.
  intros Hz Hmode Hk Hi year month day picked Hlit Hday Hyc Hmc Hdc.
  assert (Hm : 0 <= month <= 11) by (unfold month; lia).
  assert (Hd : 1 <= day <= month_length year month) by (unfold day in *; lia).
  split; [ | now apply new_Date_fields].
  assert (Hy : -271820 <= year <= 275759) by (unfold literal_year in Hlit; lia).
  rewrite !run_cons. cbn [run fst snd].
  (* the year label *)
  change (step h p (mkState sel (Num y) m0 true months) ClickHeaderLabel)
    with (mkState sel (Num y) m0 true years, @nil Date). cbn [fst snd].
  (* the year cell *)
  assert (S2 : step h p (mkState sel (Num y) m0 true years) (ClickYearCell k)
               = (mkState sel (Num year) m0 true months, [])).
  { unfold step. cbn [isOpen viewMode ViewMode_eqb andb].
    rewrite (yearRange_nth (mkState sel (Num y) m0 true years) y k eq_refl Hk).
    fold year. now rewrite Hyc. }
  rewrite S2. cbn [fst snd].
  (* the month cell *)
  assert (S3 : step h p (mkState sel (Num year) m0 true months) (ClickMonthCell i)
               = (mkState sel (Num year) (Num month) true days, [])).
  { unfold step. cbn [isOpen viewMode ViewMode_eqb andb].
    unfold month_cell_disabled. cbn [currentYear]. fold month. rewrite Hmc.
    replace (i <? List.length monthNames)%nat with true
      by (symmetry; apply Nat.ltb_lt; cbn; lia).
    cbn [negb andb]. unfold handleMonthSelect. now rewrite Hmode. }
  rewrite S3. cbn [fst snd].
  (* the day cell *)
  assert (S4 : step h p (mkState sel (Num year) (Num month) true days) (ClickDayCell j)
               = (mkState (Some picked) (Num year) (Num month) false days,
                  call_onChange p picked)).
  { unfold step. cbn [isOpen viewMode ViewMode_eqb andb].
    rewrite (day_cells_nth h (mkState sel (Num year) (Num month) true days)
               year month j Hz Hy Hm eq_refl eq_refl)
      by (rewrite (constructor_year_literal year Hlit); unfold day in Hday; lia).
    fold day. unfold day_cell_disabled, handleDaySelect.
    cbn [currentYear currentMonth]. fold picked. rewrite Hdc. cbn [negb].
    unfold initialViewMode. now rewrite Hmode. }
  rewrite S4. cbn [fst snd]. now rewrite app_nil_r.
Qed.

(** X18.  A widget mounted without a value has its cursor on the year and
    month of today, and marks as current the day of today and the month of
    today, and no other cell. *)
Theorem mount_without_value_shows_today h p :
  value p = None ->
  exists y m d,
    getFullYear h (today h) = Num y /\ getMonth h (today h) = Num m /\
    getDate h (today h) = Num d /\
    currentYear (mount h p) = Num y /\ currentMonth (mount h p) = Num m /\
    (forall d', isToday h (mount h p) (Num d') = (d' =? d)) /\
    (forall i, isCurrentMonth h (mount h p) (Num i) = (i =? m)).
Proof.
  intros E.
  exists (YearFromTime (LocalTime h (now h))), (MonthFromTime (LocalTime h (now h))),
    (DateFromTime (LocalTime h (now h))).
  do 3 (split; [reflexivity | ]).
  assert (C : currentYear (mount h p) = getFullYear h (today h)
              /\ currentMonth (mount h p) = getMonth h (today h)).
  { unfold mount, value_effect, initial_state. now rewrite E. }
  destruct C as [Cy Cm].
  split; [exact Cy | split; [exact Cm | split ] ].
  - intros d'. unfold isToday. rewrite Cy, Cm.
    unfold getFullYear, getMonth, getDate, today. cbn [getTime].
    rewrite !strict_eq_Num, !Z.eqb_refl, !andb_true_r. apply Z.eqb_sym.
  - intros i. unfold isCurrentMonth. rewrite Cy.
    unfold getFullYear, getMonth, today. cbn [getTime].
    now rewrite !strict_eq_Num, Z.eqb_refl, andb_true_r.
Qed.

Lemma drill_down_selects_witness :
  zone_within_a_day host_utc /\ includeDays (no_bounds true) = true /\
  (9 < 20)%nat /\ (2 < 12)%nat /\
  literal_year (2024 - 10 + Z.of_nat 9) /\
  Z.of_nat 14 + 1 <= month_length (2024 - 10 + Z.of_nat 9) (Z.of_nat 2) /\
  year_cell_disabled host_utc (no_bounds true) (Num (2024 - 10 + Z.of_nat 9)) = false /\
  run host_utc (no_bounds true) (mkState None (Num 2024) (Num 0) true months)
    [ClickHeaderLabel; ClickYearCell 9; ClickMonthCell 2; ClickDayCell 14]
  = (mkState (Some (new_Date host_utc (Num 2023) (Num 2) (Num 15)))
       (Num 2023) (Num 2) false days,
     [new_Date host_utc (Num 2023) (Num 2) (Num 15)]).
Proof.
  assert (Hz : zone_within_a_day host_utc)
    by (exists 0; split; [unfold msPerDay; lia | reflexivity]).
  assert (Hk : (9 < 20)%nat) by lia.
  assert (Hi : (2 < 12)%nat) by lia.
  assert (Hlit : literal_year (2024 - 10 + Z.of_nat 9)) by (unfold literal_year; lia).
  assert (Hday : Z.of_nat 14 + 1 <= month_length (2024 - 10 + Z.of_nat 9) (Z.of_nat 2))
    by (vm_compute; discriminate).
  assert (Hyc : year_cell_disabled host_utc (no_bounds true)
                  (Num (2024 - 10 + Z.of_nat 9)) = false) by (vm_compute; reflexivity).
  split; [exact Hz | split; [reflexivity | ] ].
  split; [exact Hk | split; [exact Hi | split; [exact Hlit | ] ] ].
  split; [exact Hday | split; [exact Hyc | ] ].
  exact (proj1 (drill_down_selects host_utc (no_bounds true) None 2024 (Num 0)
                  9%nat 2%nat 14%nat Hz eq_refl Hk Hi Hlit Hday Hyc eq_refl eq_refl)).
Defined.

Lemma mount_without_value_shows_today_witness :
  value (no_bounds true) = None /\
  exists y m d,
    getFullYear host_utc (today host_utc) = Num y /\
    getMonth host_utc (today host_utc) = Num m /\
    getDate host_utc (today host_utc) = Num d /\
    currentYear (mount host_utc (no_bounds true)) = Num y /\
    currentMonth (mount host_utc (no_bounds true)) = Num m /\
    (forall d', isToday host_utc (mount host_utc (no_bounds true)) (Num d') = (d' =? d)) /\
    (forall i, isCurrentMonth host_utc (mount host_utc (no_bounds true)) (Num i)
               = (i =? m)).
Proof.
  split; [reflexivity | ].
  exact (mount_without_value_shows_today host_utc (no_bounds true) eq_refl).
Defined.
